(** * PercolatorClient: a shallow embedding of the transaction-orchestration client

    Sources embedded here:
    - [src/lib/percolator/client.ts]   (class [PercolatorClient], [abs128])
    - [src/lib/percolator/solana/ata.ts] ([getAta])
    - [src/unnamed/part_002]            ([createPercolatorMarket])

    The client is asynchronous but single threaded: every [await] is a
    sequence point, so a method is a straight-line program over external
    calls (RPC, wallet, console) that may return or throw, plus reads and
    writes of the two private cache fields.  Programs are terms of the free
    monad [Prog]; [run] interprets them against an arbitrary [World]. *)

From Stdlib Require Import ZArith NArith List String Ascii Bool Lia Sorted.
From Stdlib Require Import HexString Floats.
Import ListNotations.

Open Scope string_scope.
Open Scope Z_scope.
Open Scope list_scope.

(* ====================================================================== *)
(** ** JavaScript values that cross the try/catch boundary *)

(** A thrown JavaScript value: an [Error] instance with its [message], or any
    other value, kept as the text [String(e)] renders it to. *)
Inductive JsThrown : Type :=
| JsError (message : string)
| JsValue (rendering : string).

(** [e instanceof Error ? e.message : String(e)] *)
Definition errorMessage (e : JsThrown) : string :=
  match e with
  | JsError m => m
  | JsValue s => s
  end.

(** The result of evaluating a call that may throw. *)
Inductive Outcome (A : Type) : Type :=
| Returned (a : A)
| Thrown (e : JsThrown).
Arguments Returned {A} a.
Arguments Thrown {A} e.

(** Truthiness of a [string | null] value: [null] and the empty string are
    falsy. *)
Definition truthy (s : option string) : bool :=
  match s with
  | Some EmptyString => false
  | Some _ => true
  | None => false
  end.

(** [n.toString(16)] for a non-negative integer. *)
Definition toString16 (n : N) : string :=
  match n with
  | N0 => "0"
  | Npos p => HexString.Raw.of_pos p ""
  end.

(* ====================================================================== *)
(** ** Chain data *)

(** A [PublicKey] is represented by its base58 text: [equals] is equality of
    the 32 bytes, which base58 renders injectively, and [toBase58] is the
    identity. *)
Definition PublicKey : Type := string.
Definition toBase58 (k : PublicKey) : string := k.
Definition pk_equals (a b : PublicKey) : bool := String.eqb a b.

Definition Buffer : Type := list Byte.byte.

Record AccountMeta : Type := {
  pubkey : PublicKey;
  isSigner : bool;
  isWritable : bool;
}.

(** One role of an instruction's account template ([abi/accounts]). *)
Record AccountSpec : Type := {
  role : string;
  signer : bool;
  writable : bool;
}.

Inductive Instruction : Type :=
| SetComputeUnitLimit (units : Z)
| SystemCreateAccount (fromPubkey newAccountPubkey : PublicKey)
                      (lamports space : Z) (owner : PublicKey)
| CreateAssociatedTokenAccount (payer ata ataOwner mint : PublicKey)
| ProgramInstruction (programId : PublicKey) (keys : list AccountMeta)
                     (data : Buffer).

Record Transaction : Type := {
  instructions : list Instruction;
  recentBlockhash : option string;
  feePayer : option PublicKey;
  partialSigners : list PublicKey;
}.

(** [new Transaction()] *)
Definition newTransaction : Transaction :=
  {| instructions := []; recentBlockhash := None; feePayer := None;
     partialSigners := [] |}.

(** [tx.add(ix)] *)
Definition tx_add (tx : Transaction) (ix : Instruction) : Transaction :=
  {| instructions := instructions tx ++ [ix];
     recentBlockhash := recentBlockhash tx;
     feePayer := feePayer tx;
     partialSigners := partialSigners tx |}.

(** [tx.recentBlockhash = bh; tx.feePayer = payer] *)
Definition tx_prepare (tx : Transaction) (bh : string) (payer : PublicKey)
  : Transaction :=
  {| instructions := instructions tx;
     recentBlockhash := Some bh;
     feePayer := Some payer;
     partialSigners := partialSigners tx |}.

(** [tx.partialSign(keypair)] *)
Definition tx_partialSign (tx : Transaction) (k : PublicKey) : Transaction :=
  {| instructions := instructions tx;
     recentBlockhash := recentBlockhash tx;
     feePayer := feePayer tx;
     partialSigners := partialSigners tx ++ [k] |}.

Record WalletAdapter : Type := { publicKey : PublicKey }.

Record BlockhashInfo : Type := {
  blockhash : string;
  lastValidBlockHeight : Z;
}.

(** What [getTransaction] answers: [txInfo?.meta?.logMessages], each level
    possibly missing. *)
Record TxMeta : Type := { logMessages : option (list string) }.
Record TxInfo : Type := { meta : option TxMeta }.

(** [txInfo?.meta?.logMessages ?? []] *)
Definition logsOf (txInfo : option TxInfo) : list string :=
  match txInfo with
  | Some i =>
      match meta i with
      | Some m => match logMessages m with Some l => l | None => [] end
      | None => []
      end
  | None => []
  end.

(* ====================================================================== *)
(** ** The slab's typed views, as far as the client reads them *)

Inductive AccountKind : Type := User | LP.

Record Account : Type := {
  kind : AccountKind;
  acc_owner : PublicKey;
  capital : Z;
  pnl : Z;
  positionSize : Z;
  entryPrice : Z;
}.

Record MarketConfig : Type := {
  collateralMint : PublicKey;
  vaultPubkey : PublicKey;
  indexFeedId : PublicKey;
}.

Record Slot : Type := { idx : Z; account : Account }.

(** The decoded program error of [abi/errors]. *)
Record ParsedError : Type := {
  err_code : N;
  err_name : string;
  err_hint : option string;
}.

Record TxResult : Type := {
  signature : string;
  error : option string;
  hint : option string;
}.

Record ClientConfig : Type := {
  programId : PublicKey;
  slabPubkey : PublicKey;
}.

(** The private, mutable fields of a [PercolatorClient]. *)
Record Cache : Type := {
  slabData : option Buffer;
  marketConfig : option MarketConfig;
}.

(** [private slabData: Buffer | null = null; private marketConfig = null] *)
Definition initialCache : Cache :=
  {| slabData := None; marketConfig := None |}.

(* ====================================================================== *)
(** ** Instruction argument structs (call sites of [abi/instructions])

    The client passes every [bigint] as its decimal text
    ([amount.toString()]); the text is kept as the integer it denotes. *)

Record InitUserArgs : Type := { iu_feePayment : Z }.
Record DepositCollateralArgs : Type := { dc_userIdx : Z; dc_amount : Z }.
Record WithdrawCollateralArgs : Type := { wc_userIdx : Z; wc_amount : Z }.
Record TradeCpiArgs : Type := { tc_lpIdx : Z; tc_userIdx : Z; tc_size : Z }.
Record TradeNoCpiArgs : Type := { tn_lpIdx : Z; tn_userIdx : Z; tn_size : Z }.
Record KeeperCrankArgs : Type := { kc_callerIdx : Z; kc_allowPanic : bool }.
Record CloseAccountArgs : Type := { ca_userIdx : Z }.
Record TopUpInsuranceArgs : Type := { ti_amount : Z }.
Record SetOracleAuthorityArgs : Type := { so_newAuthority : PublicKey }.
Record PushOraclePriceArgs : Type := { po_priceE6 : Z; po_timestamp : Z }.
Record InitLPArgs : Type := {
  il_matcherProgram : PublicKey;
  il_matcherContext : PublicKey;
  il_feePayment : Z;
}.
Record InitMarketArgs : Type := {
  im_admin : PublicKey;
  im_collateralMint : PublicKey;
  im_indexFeedId : string;
  im_maxStalenessSecs : Z;
  im_confFilterBps : Z;
  im_invert : Z;
  im_unitScale : Z;
  im_initialMarkPriceE6 : Z;
  im_maintenanceMarginBps : Z;
  im_initialMarginBps : Z;
  im_tradingFeeBps : Z;
  im_maxAccounts : Z;
  im_newAccountFee : Z;
  im_warmupPeriodSlots : Z;
  im_riskReductionThreshold : Z;
  im_maintenanceFeePerSlot : Z;
  im_maxCrankStalenessSlots : Z;
  im_liquidationFeeBps : Z;
  im_liquidationFeeCap : Z;
  im_liquidationBufferBps : Z;
  im_minLiquidationAbs : Z;
}.

(* ====================================================================== *)
(** ** Imported modules that are not part of the embedded sources

    [client.ts] imports its codecs, account templates, address derivations
    and error decoder from sibling modules and from the chain SDK.  They
    are pure; the ones that validate their input may throw.  The client is
    verified for every implementation of this interface. *)

Class Lib : Type := {
  (* ./abi/instructions *)
  encodeInitMarket : InitMarketArgs -> Outcome Buffer;
  encodeInitUser : InitUserArgs -> Outcome Buffer;
  encodeInitLP : InitLPArgs -> Outcome Buffer;
  encodeDepositCollateral : DepositCollateralArgs -> Outcome Buffer;
  encodeWithdrawCollateral : WithdrawCollateralArgs -> Outcome Buffer;
  encodeTradeCpi : TradeCpiArgs -> Outcome Buffer;
  encodeTradeNoCpi : TradeNoCpiArgs -> Outcome Buffer;
  encodeKeeperCrank : KeeperCrankArgs -> Outcome Buffer;
  encodeCloseAccount : CloseAccountArgs -> Outcome Buffer;
  encodeTopUpInsurance : TopUpInsuranceArgs -> Outcome Buffer;
  encodeSetOracleAuthority : SetOracleAuthorityArgs -> Outcome Buffer;
  encodePushOraclePrice : PushOraclePriceArgs -> Outcome Buffer;
  (* ./abi/accounts *)
  buildAccountMetas : list AccountSpec -> list PublicKey -> Outcome (list AccountMeta);
  WELL_KNOWN_tokenProgram : PublicKey;
  WELL_KNOWN_clock : PublicKey;
  WELL_KNOWN_rent : PublicKey;
  WELL_KNOWN_systemProgram : PublicKey;
  ACCOUNTS_INIT_MARKET : list AccountSpec;
  ACCOUNTS_INIT_USER : list AccountSpec;
  ACCOUNTS_INIT_LP : list AccountSpec;
  ACCOUNTS_DEPOSIT_COLLATERAL : list AccountSpec;
  ACCOUNTS_WITHDRAW_COLLATERAL : list AccountSpec;
  ACCOUNTS_TRADE_CPI : list AccountSpec;
  ACCOUNTS_TRADE_NOCPI : list AccountSpec;
  ACCOUNTS_KEEPER_CRANK : list AccountSpec;
  ACCOUNTS_CLOSE_ACCOUNT : list AccountSpec;
  ACCOUNTS_TOPUP_INSURANCE : list AccountSpec;
  ACCOUNTS_SET_ORACLE_AUTHORITY : list AccountSpec;
  ACCOUNTS_PUSH_ORACLE_PRICE : list AccountSpec;
  (* ./solana/pda *)
  deriveVaultAuthority : PublicKey -> PublicKey -> PublicKey * Z;
  deriveLpPda : PublicKey -> PublicKey -> Z -> PublicKey * Z;
  (* ./solana/slab *)
  EngineState : Type;
  parseConfig : Buffer -> Outcome MarketConfig;
  parseEngine : Buffer -> Outcome EngineState;
  parseAccount : Buffer -> Z -> Outcome Account;
  parseAllAccounts : Buffer -> Outcome (list Slot);
  (* ./abi/errors *)
  parseErrorFromLogs : list string -> option ParsedError;
  (* @solana/web3.js, @solana/spl-token *)
  findProgramAddressSync : list PublicKey -> PublicKey -> PublicKey * Z;
  getAssociatedTokenAddress : PublicKey -> PublicKey -> bool -> PublicKey;
  TransactionError : Type;
  JSON_stringify : TransactionError -> string;
  (* [(lamports / LAMPORTS_PER_SOL).toFixed(2)] *)
  solToFixed2 : Z -> string;
}.

(* ====================================================================== *)
(** ** External calls *)

Section Programs.
Context {L : Lib}.

(** [preflightCommitment: 'confirmed', skipPreflight: false], or no options. *)
Inductive SendOptions : Type := PreflightConfirmed | DefaultOptions.

Inductive Req : Type :=
| GetLatestBlockhash
| SignTransaction (wallet : WalletAdapter) (tx : Transaction)
| Serialize (signed : Transaction)
| SendRawTransaction (rawTx : Buffer) (opts : SendOptions)
| ConfirmTransaction (sig : string) (bh : string) (lastValid : Z)
| GetTransaction (sig : string)
| FetchSlab (slab : PublicKey)
| GetMinimumBalanceForRentExemption (space : Z)
| KeypairGenerate
| DateNow
| ConsoleLog (msg : string)
| ConsoleWarn (msg : string).

(** The value a call answers with when it does not throw.
    [ConfirmTransaction] answers [confirmation.value.err]: [None] is [null],
    and a [TransactionError] is an object or a non-empty string, hence
    truthy. *)
Definition Resp (r : Req) : Type :=
  match r with
  | GetLatestBlockhash => BlockhashInfo
  | SignTransaction _ _ => Transaction
  | Serialize _ => Buffer
  | SendRawTransaction _ _ => string
  | ConfirmTransaction _ _ _ => option TransactionError
  | GetTransaction _ => option TxInfo
  | FetchSlab _ => Buffer
  | GetMinimumBalanceForRentExemption _ => Z
  | KeypairGenerate => PublicKey
  | DateNow => Z
  | ConsoleLog _ => unit
  | ConsoleWarn _ => unit
  end.

(** Programs: return, throw, read or write a cache field, or make an
    external call and continue with its outcome. *)
Inductive Prog (A : Type) : Type :=
| Ret (a : A)
| Throw (e : JsThrown)
| ReadSlabData (k : option Buffer -> Prog A)
| WriteSlabData (b : Buffer) (k : Prog A)
| ReadMarketConfig (k : option MarketConfig -> Prog A)
| WriteMarketConfig (c : MarketConfig) (k : Prog A)
| Call (r : Req) (k : Outcome (Resp r) -> Prog A).
Arguments Ret {A} a.
Arguments Throw {A} e.
Arguments ReadSlabData {A} k.
Arguments WriteSlabData {A} b k.
Arguments ReadMarketConfig {A} k.
Arguments WriteMarketConfig {A} c k.
Arguments Call {A} r k.

Fixpoint bind {A B : Type} (p : Prog A) (f : A -> Prog B) : Prog B :=
  match p with
  | Ret a => f a
  | Throw e => Throw e
  | ReadSlabData k => ReadSlabData (fun v => bind (k v) f)
  | WriteSlabData b k => WriteSlabData b (bind k f)
  | ReadMarketConfig k => ReadMarketConfig (fun v => bind (k v) f)
  | WriteMarketConfig c k => WriteMarketConfig c (bind k f)
  | Call r k => Call r (fun o => bind (k o) f)
  end.

(** [try { p } catch (e) { h e }] *)
Fixpoint try_catch {A : Type} (p : Prog A) (h : JsThrown -> Prog A) : Prog A :=
  match p with
  | Ret a => Ret a
  | Throw e => h e
  | ReadSlabData k => ReadSlabData (fun v => try_catch (k v) h)
  | WriteSlabData b k => WriteSlabData b (try_catch k h)
  | ReadMarketConfig k => ReadMarketConfig (fun v => try_catch (k v) h)
  | WriteMarketConfig c k => WriteMarketConfig c (try_catch k h)
  | Call r k => Call r (fun o => try_catch (k o) h)
  end.

(** A pure computation that may throw. *)
Definition lift {A : Type} (o : Outcome A) : Prog A :=
  match o with
  | Returned a => Ret a
  | Thrown e => Throw e
  end.

(** [await call(...)]: a thrown call propagates. *)
Definition call (r : Req) : Prog (Resp r) := Call r lift.

End Programs.

Arguments Ret {L A} a.
Arguments Throw {L A} e.
Arguments ReadSlabData {L A} k.
Arguments WriteSlabData {L A} b k.
Arguments ReadMarketConfig {L A} k.
Arguments WriteMarketConfig {L A} c k.
Arguments Call {L A} r k.

Declare Scope prog_scope.
Delimit Scope prog_scope with prog.
Notation "x <- p ;; q" := (bind p (fun x => q))
  (at level 61, p at next level, right associativity) : prog_scope.
Notation "p ;;; q" := (bind p (fun _ => q))
  (at level 61, right associativity) : prog_scope.
Open Scope prog_scope.

(* ====================================================================== *)
(** ** Running a program against the world *)

Section Semantics.
Context {L : Lib}.

(** An external call together with what it answered. *)
Definition Event : Type := { r : Req & Outcome (Resp r) }.
Definition Trace : Type := list Event.

(** The world answers a call knowing everything that happened before: the
    chain, the wallet and the clock are arbitrary and may change between
    calls. *)
Definition World : Type := Trace -> forall r : Req, Outcome (Resp r).

Record Final (A : Type) : Type := {
  outcome : Outcome A;
  cache : Cache;
  emitted : Trace;
}.
Arguments outcome {A} f.
Arguments cache {A} f.
Arguments emitted {A} f.

(** What a call answers after history [h].  The console never throws. *)
Definition answer (w : World) (h : Trace) (r : Req) : Outcome (Resp r) :=
  match r as r0 return Outcome (Resp r0) -> Outcome (Resp r0) with
  | ConsoleLog _ => fun _ => Returned tt
  | ConsoleWarn _ => fun _ => Returned tt
  | _ => fun o => o
  end (w h r).

(** [run p w c h]: run [p] with cache [c] after history [h]; the result holds
    the outcome, the cache left behind and the calls made, oldest first. *)
Fixpoint run {A : Type} (p : Prog A) (w : World) (c : Cache) (h : Trace)
  : Final A :=
  match p with
  | Ret a => {| outcome := Returned a; cache := c; emitted := [] |}
  | Throw e => {| outcome := Thrown e; cache := c; emitted := [] |}
  | ReadSlabData k => run (k (slabData c)) w c h
  | WriteSlabData b k =>
      run k w {| slabData := Some b; marketConfig := marketConfig c |} h
  | ReadMarketConfig k => run (k (marketConfig c)) w c h
  | WriteMarketConfig m k =>
      run k w {| slabData := slabData c; marketConfig := Some m |} h
  | Call r k =>
      let o := answer w h r in
      let ev : Event := existT _ r o in
      let f := run (k o) w c (h ++ [ev]) in
      {| outcome := outcome f; cache := cache f; emitted := ev :: emitted f |}
  end.

(** The requests of a trace, in order. *)
Definition requests (t : Trace) : list Req := map (@projT1 _ _) t.

Definition isSend (r : Req) : bool :=
  match r with SendRawTransaction _ _ => true | _ => false end.

Definition isFetch (r : Req) : bool :=
  match r with FetchSlab _ => true | _ => false end.

(** How many transactions a trace submitted to the chain. *)
Definition submissions (t : Trace) : nat :=
  List.length (filter isSend (requests t)).

(** How many times a trace fetched the slab over the network. *)
Definition fetches (t : Trace) : nat :=
  List.length (filter isFetch (requests t)).

(* ====================================================================== *)
(** ** [PercolatorClient]: data fetching *)

(** A field read back as [null] where the source asserts it is set
    ([this.slabData!], [this.marketConfig!]).  No run reaches it: each such
    read follows a write of the field or a [refreshSlab] that returned. *)
Definition typeError {A : Type} : Prog A :=
  Throw (JsError "TypeError: Cannot read properties of null").

(** [refreshSlab] *)
Definition refreshSlab (self : ClientConfig) : Prog Buffer :=
  fetched <- call (FetchSlab (slabPubkey self)) ;;
  WriteSlabData fetched
  (ReadSlabData (fun d =>
   match d with
   | None => typeError
   | Some data =>
       cfg <- lift (parseConfig data) ;;
       WriteMarketConfig cfg
       (ReadSlabData (fun d' =>
        match d' with
        | None => typeError
        | Some data' => Ret data'
        end))
   end)).

(** [getMarketConfig] *)
Definition getMarketConfig (self : ClientConfig) : Prog MarketConfig :=
  ReadMarketConfig (fun m =>
  (match m with
   | None => refreshSlab self ;;; Ret tt
   | Some _ => Ret tt
   end) ;;;
  ReadMarketConfig (fun m' =>
  match m' with
  | None => typeError
  | Some cfg => Ret cfg
  end)).

(** [getEngineState] *)
Definition getEngineState (self : ClientConfig) : Prog EngineState :=
  ReadSlabData (fun d =>
  (match d with
   | None => refreshSlab self ;;; Ret tt
   | Some _ => Ret tt
   end) ;;;
  ReadSlabData (fun d' =>
  match d' with
  | None => typeError
  | Some data => lift (parseEngine data)
  end)).

Record MarketInfo : Type := {
  mi_config : MarketConfig;
  mi_engine : EngineState;
  mi_accounts : list Slot;
}.

(** [getMarketInfo] *)
Definition getMarketInfo (self : ClientConfig) : Prog MarketInfo :=
  data <- refreshSlab self ;;
  cfg <- lift (parseConfig data) ;;
  eng <- lift (parseEngine data) ;;
  accs <- lift (parseAllAccounts data) ;;
  Ret {| mi_config := cfg; mi_engine := eng; mi_accounts := accs |}.

(** [findUserAccount]: [accounts.find(a => a.account.owner.equals(owner))],
    then [found || null]. *)
Definition findUserAccount (self : ClientConfig) (owner : PublicKey)
  : Prog (option Slot) :=
  data <- refreshSlab self ;;
  accounts <- lift (parseAllAccounts data) ;;
  Ret (find (fun a => pk_equals (acc_owner (account a)) owner) accounts).

(* ---------------------------------------------------------------------- *)
(** *** Positions and leverage *)

(** [abs128] *)
Definition abs128 (val : Z) : Z := if val <? 0 then - val else val.

(** JavaScript numbers are IEEE 754 binary64 values. *)
Definition number : Type := spec_float.

(** [Number(b)] for a [bigint]: the nearest double, ties to even. *)
Definition Number (b : Z) : number := binary_normalize 53 1024 b 0 false.

(** [x / y] on numbers. *)
Definition number_div (x y : number) : number := SFdiv 53 1024 x y.

Record PositionInfo : Type := {
  pi_index : Z;
  pi_kind : AccountKind;
  pi_owner : string;
  pi_capital : Z;
  pi_pnl : Z;
  pi_positionSize : Z;
  pi_entryPrice : Z;
  pi_leverage : number;
}.

(** The [notional] of the mapping callback; [/] on [bigint] truncates, and
    both operands are non-negative on the branch that divides. *)
Definition notionalOf (a : Account) : Z :=
  if entryPrice a >? 0
  then Z.quot (abs128 (positionSize a) * entryPrice a) 1000000
  else 0.

(** The [leverage] of the mapping callback. *)
Definition leverageOf (a : Account) : number :=
  if (capital a >? 0) && (notionalOf a >? 0)
  then number_div (Number (notionalOf a)) (Number (capital a))
  else Number 0.

Definition positionOf (s : Slot) : PositionInfo :=
  let a := account s in
  {| pi_index := idx s;
     pi_kind := match kind a with LP => LP | User => User end;
     pi_owner := toBase58 (acc_owner a);
     pi_capital := capital a;
     pi_pnl := pnl a;
     pi_positionSize := positionSize a;
     pi_entryPrice := entryPrice a;
     pi_leverage := leverageOf a |}.

(** [a.account.positionSize !== 0n] *)
Definition hasPosition (s : Slot) : bool :=
  negb (positionSize (account s) =? 0).

(** [getAllPositions] *)
Definition getAllPositions (self : ClientConfig) : Prog (list PositionInfo) :=
  data <- refreshSlab self ;;
  accounts <- lift (parseAllAccounts data) ;;
  engine <- lift (parseEngine data) ;;
  Ret (map positionOf (filter hasPosition accounts)).

(* ====================================================================== *)
(** ** [ata.ts] *)

Definition TOKEN_PROGRAM_ID : PublicKey :=
  "TokenkegQfeZyiNwAJbNbGKPFXCWuBvf9Ss623VQ5DA".
Definition ASSOCIATED_TOKEN_PROGRAM_ID : PublicKey :=
  "ATokenGPvbdGVxr1b2hvZbsiqW5xWH25efTNsLJA8knL".

(** [getAta] *)
Definition getAta (owner mint : PublicKey) : PublicKey :=
  fst (findProgramAddressSync [owner; TOKEN_PROGRAM_ID; mint]
                              ASSOCIATED_TOKEN_PROGRAM_ID).

(* ====================================================================== *)
(** ** [PercolatorClient]: transaction building *)

(** [buildTransaction] *)
Definition buildTransaction (ix : Instruction) : Prog Transaction :=
  let tx := newTransaction in
  let tx := tx_add tx (SetComputeUnitLimit 400000) in
  let tx := tx_add tx ix in
  Ret tx.

(** A parameter declared [feePayment: bigint = 1_000_000n]. *)
Definition orDefault (given : option Z) (dflt : Z) : Z :=
  match given with Some v => v | None => dflt end.

(** [buildInitUserTx] *)
Definition buildInitUserTx (self : ClientConfig) (wallet : WalletAdapter)
    (feePayment : option Z) : Prog Transaction :=
  let feePayment := orDefault feePayment 1000000 in
  config <- getMarketConfig self ;;
  let userAta := getAta (publicKey wallet) (collateralMint config) in
  ixData <- lift (encodeInitUser {| iu_feePayment := feePayment |}) ;;
  keys <- lift (buildAccountMetas ACCOUNTS_INIT_USER
                  [publicKey wallet; slabPubkey self; userAta;
                   vaultPubkey config; WELL_KNOWN_tokenProgram]) ;;
  buildTransaction (ProgramInstruction (programId self) keys ixData).

(** [buildDepositTx] *)
Definition buildDepositTx (self : ClientConfig) (wallet : WalletAdapter)
    (userIdx amount : Z) : Prog Transaction :=
  config <- getMarketConfig self ;;
  let userAta := getAta (publicKey wallet) (collateralMint config) in
  ixData <- lift (encodeDepositCollateral
                    {| dc_userIdx := userIdx; dc_amount := amount |}) ;;
  keys <- lift (buildAccountMetas ACCOUNTS_DEPOSIT_COLLATERAL
                  [publicKey wallet; slabPubkey self; userAta;
                   vaultPubkey config; WELL_KNOWN_tokenProgram;
                   WELL_KNOWN_clock]) ;;
  buildTransaction (ProgramInstruction (programId self) keys ixData).

(** [buildWithdrawTx] *)
Definition buildWithdrawTx (self : ClientConfig) (wallet : WalletAdapter)
    (userIdx amount : Z) : Prog Transaction :=
  config <- getMarketConfig self ;;
  let userAta := getAta (publicKey wallet) (collateralMint config) in
  let vaultPda := fst (deriveVaultAuthority (programId self) (slabPubkey self)) in
  ixData <- lift (encodeWithdrawCollateral
                    {| wc_userIdx := userIdx; wc_amount := amount |}) ;;
  keys <- lift (buildAccountMetas ACCOUNTS_WITHDRAW_COLLATERAL
                  [publicKey wallet; slabPubkey self; vaultPubkey config;
                   userAta; vaultPda; WELL_KNOWN_tokenProgram;
                   WELL_KNOWN_clock; indexFeedId config]) ;;
  buildTransaction (ProgramInstruction (programId self) keys ixData).

(** [buildTradeCpiTx] *)
Definition buildTradeCpiTx (self : ClientConfig) (wallet : WalletAdapter)
    (userIdx lpIdx size : Z) (matcherProgram matcherCtx : PublicKey)
  : Prog Transaction :=
  data <- refreshSlab self ;;
  config <- lift (parseConfig data) ;;
  lpAccount <- lift (parseAccount data lpIdx) ;;
  let lpPda := fst (deriveLpPda (programId self) (slabPubkey self) lpIdx) in
  ixData <- lift (encodeTradeCpi
                    {| tc_lpIdx := lpIdx; tc_userIdx := userIdx;
                       tc_size := size |}) ;;
  keys <- lift (buildAccountMetas ACCOUNTS_TRADE_CPI
                  [publicKey wallet; acc_owner lpAccount; slabPubkey self;
                   WELL_KNOWN_clock; indexFeedId config; matcherProgram;
                   matcherCtx; lpPda]) ;;
  buildTransaction (ProgramInstruction (programId self) keys ixData).

(** [buildTradeNoCpiTx]; [lpOwnerWallet?.publicKey || lpAccount.owner]
    takes the wallet's key whenever a wallet is given. *)
Definition buildTradeNoCpiTx (self : ClientConfig) (wallet : WalletAdapter)
    (userIdx lpIdx size : Z) (lpOwnerWallet : option WalletAdapter)
  : Prog Transaction :=
  config <- getMarketConfig self ;;
  data <- refreshSlab self ;;
  lpAccount <- lift (parseAccount data lpIdx) ;;
  ixData <- lift (encodeTradeNoCpi
                    {| tn_lpIdx := lpIdx; tn_userIdx := userIdx;
                       tn_size := size |}) ;;
  keys <- lift (buildAccountMetas ACCOUNTS_TRADE_NOCPI
                  [publicKey wallet;
                   match lpOwnerWallet with
                   | Some lw => publicKey lw
                   | None => acc_owner lpAccount
                   end;
                   slabPubkey self; WELL_KNOWN_clock; indexFeedId config]) ;;
  buildTransaction (ProgramInstruction (programId self) keys ixData).

(** [buildKeeperCrankTx]; [callerIdx: number = 0]. *)
Definition buildKeeperCrankTx (self : ClientConfig) (wallet : WalletAdapter)
    (callerIdx : option Z) : Prog Transaction :=
  let callerIdx := orDefault callerIdx 0 in
  config <- getMarketConfig self ;;
  ixData <- lift (encodeKeeperCrank
                    {| kc_callerIdx := callerIdx; kc_allowPanic := false |}) ;;
  keys <- lift (buildAccountMetas ACCOUNTS_KEEPER_CRANK
                  [publicKey wallet; slabPubkey self; WELL_KNOWN_clock;
                   indexFeedId config]) ;;
  buildTransaction (ProgramInstruction (programId self) keys ixData).

(** [buildCloseAccountTx] *)
Definition buildCloseAccountTx (self : ClientConfig) (wallet : WalletAdapter)
    (userIdx : Z) : Prog Transaction :=
  config <- getMarketConfig self ;;
  let userAta := getAta (publicKey wallet) (collateralMint config) in
  let vaultPda := fst (deriveVaultAuthority (programId self) (slabPubkey self)) in
  ixData <- lift (encodeCloseAccount {| ca_userIdx := userIdx |}) ;;
  keys <- lift (buildAccountMetas ACCOUNTS_CLOSE_ACCOUNT
                  [publicKey wallet; slabPubkey self; vaultPubkey config;
                   userAta; vaultPda; WELL_KNOWN_tokenProgram;
                   WELL_KNOWN_clock; indexFeedId config]) ;;
  buildTransaction (ProgramInstruction (programId self) keys ixData).

(** [buildInitMarketTx] *)
Definition buildInitMarketTx (self : ClientConfig) (wallet : WalletAdapter)
    (slab mint vault dummyAta : PublicKey) (marketArgs : InitMarketArgs)
  : Prog Transaction :=
  ixData <- lift (encodeInitMarket marketArgs) ;;
  keys <- lift (buildAccountMetas ACCOUNTS_INIT_MARKET
                  [publicKey wallet; slab; mint; vault;
                   WELL_KNOWN_tokenProgram; WELL_KNOWN_clock; WELL_KNOWN_rent;
                   dummyAta; WELL_KNOWN_systemProgram]) ;;
  buildTransaction (ProgramInstruction (programId self) keys ixData).

(** [buildInitLpTx] *)
Definition buildInitLpTx (self : ClientConfig) (wallet : WalletAdapter)
    (slab mint vault matcherProgram matcherContext : PublicKey)
    (feePayment : option Z) : Prog Transaction :=
  let feePayment := orDefault feePayment 1000000 in
  let userAta := getAta (publicKey wallet) mint in
  ixData <- lift (encodeInitLP
                    {| il_matcherProgram := matcherProgram;
                       il_matcherContext := matcherContext;
                       il_feePayment := feePayment |}) ;;
  keys <- lift (buildAccountMetas ACCOUNTS_INIT_LP
                  [publicKey wallet; slab; userAta; vault;
                   WELL_KNOWN_tokenProgram]) ;;
  buildTransaction (ProgramInstruction (programId self) keys ixData).

(** [buildSetOracleAuthorityTx] *)
Definition buildSetOracleAuthorityTx (self : ClientConfig)
    (wallet : WalletAdapter) (slab newAuthority : PublicKey)
  : Prog Transaction :=
  ixData <- lift (encodeSetOracleAuthority
                    {| so_newAuthority := newAuthority |}) ;;
  keys <- lift (buildAccountMetas ACCOUNTS_SET_ORACLE_AUTHORITY
                  [publicKey wallet; slab]) ;;
  buildTransaction (ProgramInstruction (programId self) keys ixData).

(** [buildPushOraclePriceTx] *)
Definition buildPushOraclePriceTx (self : ClientConfig)
    (wallet : WalletAdapter) (slab : PublicKey) (priceE6 timestamp : Z)
  : Prog Transaction :=
  ixData <- lift (encodePushOraclePrice
                    {| po_priceE6 := priceE6; po_timestamp := timestamp |}) ;;
  keys <- lift (buildAccountMetas ACCOUNTS_PUSH_ORACLE_PRICE
                  [publicKey wallet; slab]) ;;
  buildTransaction (ProgramInstruction (programId self) keys ixData).

(** [buildTopUpInsuranceTx] *)
Definition buildTopUpInsuranceTx (self : ClientConfig)
    (wallet : WalletAdapter) (slab mint vault : PublicKey) (amount : Z)
  : Prog Transaction :=
  let userAta := getAta (publicKey wallet) mint in
  ixData <- lift (encodeTopUpInsurance {| ti_amount := amount |}) ;;
  keys <- lift (buildAccountMetas ACCOUNTS_TOPUP_INSURANCE
                  [publicKey wallet; slab; userAta; vault;
                   WELL_KNOWN_tokenProgram]) ;;
  buildTransaction (ProgramInstruction (programId self) keys ixData).

(* ====================================================================== *)
(** ** [PercolatorClient.sendTransaction] *)

(** The [error] text of a confirmed execution error. *)
Definition executionError (parsed : option ParsedError)
    (err : TransactionError) : string :=
  match parsed with
  | Some p => (err_name p ++ " (0x" ++ toString16 (err_code p) ++ ")")%string
  | None => JSON_stringify err
  end.

(** [parsed?.hint] *)
Definition hintOf (parsed : option ParsedError) : option string :=
  match parsed with
  | Some p => err_hint p
  | None => None
  end.

(** The body of the [try] block.  The source sets [recentBlockhash] and
    [feePayer] on the caller's transaction object; the wallet is handed the
    transaction so prepared. *)
Definition sendTransaction_body (wallet : WalletAdapter) (tx : Transaction)
  : Prog TxResult :=
  latestBlockhash <- call GetLatestBlockhash ;;
  let tx := tx_prepare tx (blockhash latestBlockhash) (publicKey wallet) in
  signed <- call (SignTransaction wallet tx) ;;
  rawTx <- call (Serialize signed) ;;
  sig <- call (SendRawTransaction rawTx PreflightConfirmed) ;;
  confirmation <- call (ConfirmTransaction sig (blockhash latestBlockhash)
                          (lastValidBlockHeight latestBlockhash)) ;;
  match confirmation with
  | Some err =>
      txInfo <- call (GetTransaction sig) ;;
      let logs := logsOf txInfo in
      let parsed := parseErrorFromLogs logs in
      Ret {| signature := sig;
             error := Some (executionError parsed err);
             hint := hintOf parsed |}
  | None => Ret {| signature := sig; error := None; hint := None |}
  end.

(** [sendTransaction] *)
Definition sendTransaction (self : ClientConfig) (wallet : WalletAdapter)
    (tx : Transaction) : Prog TxResult :=
  try_catch (sendTransaction_body wallet tx)
    (fun e => Ret {| signature := ""; error := Some (errorMessage e);
                     hint := None |}).

(* ====================================================================== *)
(** ** Market bootstrap ([createPercolatorMarket]) *)

(** [MAINNET_CONFIG] *)
Definition MAINNET_programId : PublicKey :=
  "DP2EbA2v6rmkmNieZpnjumXosuXQ93r9jyb9eSzzkf1x".
Definition MAINNET_matcherProgram : PublicKey :=
  "FbTaGPKcrgKXQx3t5WekJcAyH5cL9s8kvVccvZC3jg8r".
Definition MAINNET_collateralMint : PublicKey :=
  "So11111111111111111111111111111111111111112".

Definition SLAB_SIZE : Z := 1048576.

(** ['0'.repeat(64)] *)
Definition zeros64 : string := String.concat "" (repeat "0" 64).

(** The argument struct of the [InitMarket] step: the literal fields, then
    [...DEFAULT_MARKET_PARAMS]. *)
Definition initMarketArgs (wallet : WalletAdapter) (initialPriceE6 : Z)
  : InitMarketArgs :=
  {| im_admin := publicKey wallet;
     im_collateralMint := MAINNET_collateralMint;
     im_indexFeedId := zeros64;
     im_maxStalenessSecs := 3600;
     im_confFilterBps := 0;
     im_invert := 0;
     im_unitScale := 0;
     im_initialMarkPriceE6 := initialPriceE6;
     im_maintenanceMarginBps := 500;
     im_initialMarginBps := 1000;
     im_tradingFeeBps := 10;
     im_maxAccounts := 4096;
     im_newAccountFee := 1000000;
     im_warmupPeriodSlots := 100;
     im_riskReductionThreshold := 0;
     im_maintenanceFeePerSlot := 0;
     im_maxCrankStalenessSlots := 1000;
     im_liquidationFeeBps := 100;
     im_liquidationFeeCap := 100000000;
     im_liquidationBufferBps := 50;
     im_minLiquidationAbs := 10000000 |}.

Record MarketResult : Type := {
  success : bool;
  slabAddress : option string;
  mr_error : option string;
}.

(** A [string | null] inside a template literal. *)
Definition interpolate (s : option string) : string :=
  match s with Some t => t | None => "null" end.

Definition sagaFailed (msg : string) : MarketResult :=
  {| success := false; slabAddress := None; mr_error := Some msg |}.

Definition sagaSucceeded (slab : PublicKey) : MarketResult :=
  {| success := true; slabAddress := Some (toBase58 slab); mr_error := None |}.

(** Step 1: create the slab account.  The confirmation's answer is awaited
    and dropped. *)
Definition createSlabStep (wallet : WalletAdapter) : Prog PublicKey :=
  slabKeypair <- call KeypairGenerate ;;
  rentExemption <- call (GetMinimumBalanceForRentExemption SLAB_SIZE) ;;
  call (ConsoleLog ("[Percolator] Slab rent: " ++ solToFixed2 rentExemption
                      ++ " SOL")%string) ;;;
  let createSlabIx :=
    SystemCreateAccount (publicKey wallet) slabKeypair rentExemption
                        SLAB_SIZE MAINNET_programId in
  let createSlabTx := tx_add newTransaction createSlabIx in
  bh1 <- call GetLatestBlockhash ;;
  let createSlabTx := tx_prepare createSlabTx (blockhash bh1) (publicKey wallet) in
  let createSlabTx := tx_partialSign createSlabTx slabKeypair in
  signedCreateSlab <- call (SignTransaction wallet createSlabTx) ;;
  raw <- call (Serialize signedCreateSlab) ;;
  sig1 <- call (SendRawTransaction raw PreflightConfirmed) ;;
  call (ConfirmTransaction sig1 (blockhash bh1) (lastValidBlockHeight bh1)) ;;;
  call (ConsoleLog ("[Percolator] ✅ Slab created: " ++ toBase58 slabKeypair)%string) ;;;
  Ret slabKeypair.

(** Step 2: create the vault token account. *)
Definition createVaultStep (wallet : WalletAdapter) (slab : PublicKey)
  : Prog PublicKey :=
  let vaultPda := fst (deriveVaultAuthority MAINNET_programId slab) in
  let vaultAta := getAssociatedTokenAddress MAINNET_collateralMint vaultPda true in
  let createVaultTx :=
    tx_add newTransaction
      (CreateAssociatedTokenAccount (publicKey wallet) vaultAta vaultPda
                                    MAINNET_collateralMint) in
  bh2 <- call GetLatestBlockhash ;;
  let createVaultTx := tx_prepare createVaultTx (blockhash bh2) (publicKey wallet) in
  signedVault <- call (SignTransaction wallet createVaultTx) ;;
  raw <- call (Serialize signedVault) ;;
  sig2 <- call (SendRawTransaction raw DefaultOptions) ;;
  call (ConfirmTransaction sig2 (blockhash bh2) (lastValidBlockHeight bh2)) ;;;
  call (ConsoleLog ("[Percolator] ✅ Vault ATA created: " ++ toBase58 vaultAta)%string) ;;;
  Ret vaultAta.

(** Step 3: [InitMarket] through the client. *)
Definition initMarketStep (client : ClientConfig) (wallet : WalletAdapter)
    (slab vaultAta : PublicKey) (initialPriceE6 : Z) : Prog TxResult :=
  initMarketTx <- buildInitMarketTx client wallet slab MAINNET_collateralMint
                    vaultAta vaultAta (initMarketArgs wallet initialPriceE6) ;;
  sendTransaction client wallet initMarketTx.

(** Step 4: [SetOracleAuthority]. *)
Definition setOracleStep (client : ClientConfig) (wallet : WalletAdapter)
    (slab : PublicKey) : Prog TxResult :=
  setOracleTx <- buildSetOracleAuthorityTx client wallet slab (publicKey wallet) ;;
  sendTransaction client wallet setOracleTx.

(** Step 5: [PushOraclePrice];
    [BigInt(Math.floor(Date.now() / 1000))]. *)
Definition pushPriceStep (client : ClientConfig) (wallet : WalletAdapter)
    (slab : PublicKey) (initialPriceE6 : Z) : Prog TxResult :=
  now <- call DateNow ;;
  let timestamp := now / 1000 in
  pushPriceTx <- buildPushOraclePriceTx client wallet slab initialPriceE6 timestamp ;;
  sendTransaction client wallet pushPriceTx.

(** Step 6: create the matcher context account. *)
Definition createMatcherCtxStep (wallet : WalletAdapter) : Prog PublicKey :=
  matcherCtxKeypair <- call KeypairGenerate ;;
  let matcherCtxSize := 128 in
  matcherCtxRent <- call (GetMinimumBalanceForRentExemption matcherCtxSize) ;;
  let createMatcherCtxTx :=
    tx_add newTransaction
      (SystemCreateAccount (publicKey wallet) matcherCtxKeypair matcherCtxRent
                           matcherCtxSize MAINNET_matcherProgram) in
  bh3 <- call GetLatestBlockhash ;;
  let createMatcherCtxTx :=
    tx_prepare createMatcherCtxTx (blockhash bh3) (publicKey wallet) in
  let createMatcherCtxTx := tx_partialSign createMatcherCtxTx matcherCtxKeypair in
  signedMatcherCtx <- call (SignTransaction wallet createMatcherCtxTx) ;;
  raw <- call (Serialize signedMatcherCtx) ;;
  sig3 <- call (SendRawTransaction raw DefaultOptions) ;;
  call (ConfirmTransaction sig3 (blockhash bh3) (lastValidBlockHeight bh3)) ;;;
  call (ConsoleLog ("[Percolator] ✅ Matcher context created: "
                      ++ toBase58 matcherCtxKeypair)%string) ;;;
  Ret matcherCtxKeypair.

(** Step 7: [InitLP]. *)
Definition initLpStep (client : ClientConfig) (wallet : WalletAdapter)
    (slab vaultAta matcherCtx : PublicKey) : Prog TxResult :=
  initLpTx <- buildInitLpTx client wallet slab MAINNET_collateralMint vaultAta
                MAINNET_matcherProgram matcherCtx None ;;
  sendTransaction client wallet initLpTx.

(** [if (r.error) console.warn(...) else console.log(...)] of steps 4, 5
    and 7. *)
Definition report (what done : string) (r : TxResult) : Prog unit :=
  if truthy (error r)
  then call (ConsoleWarn ("[Percolator] " ++ what ++ " warning: "
                            ++ interpolate (error r))%string)
  else call (ConsoleLog ("[Percolator] ✅ " ++ done ++ ": " ++ signature r)%string).

(** Steps 4 to 7 and the final [return]. *)
Definition afterInitMarket (client : ClientConfig) (wallet : WalletAdapter)
    (slab vaultAta : PublicKey) (initialPriceE6 : Z) : Prog MarketResult :=
  oracleResult <- setOracleStep client wallet slab ;;
  report "SetOracleAuthority" "Oracle authority set" oracleResult ;;;
  priceResult <- pushPriceStep client wallet slab initialPriceE6 ;;
  report "PushOraclePrice" "Initial price pushed" priceResult ;;;
  matcherCtx <- createMatcherCtxStep wallet ;;
  lpResult <- initLpStep client wallet slab vaultAta matcherCtx ;;
  report "InitLP" "LP initialized" lpResult ;;;
  Ret (sagaSucceeded slab).

(** The body of the [try] block. *)
Definition createPercolatorMarket_body (wallet : WalletAdapter)
    (initialPriceE6 : Z) : Prog MarketResult :=
  slab <- createSlabStep wallet ;;
  vaultAta <- createVaultStep wallet slab ;;
  let client := {| programId := MAINNET_programId; slabPubkey := slab |} in
  initResult <- initMarketStep client wallet slab vaultAta initialPriceE6 ;;
  if truthy (error initResult)
  then Ret (sagaFailed ("InitMarket failed: " ++ interpolate (error initResult))%string)
  else
    call (ConsoleLog ("[Percolator] ✅ Market initialized: "
                        ++ signature initResult)%string) ;;;
    afterInitMarket client wallet slab vaultAta initialPriceE6.

(** [createPercolatorMarket].  The client it creates is a fresh object with
    an empty cache; none of the builders it uses reads or writes it. *)
Definition createPercolatorMarket (wallet : WalletAdapter)
    (initialPriceE6 : Z) : Prog MarketResult :=
  try_catch (createPercolatorMarket_body wallet initialPriceE6)
    (fun e => Ret (sagaFailed (errorMessage e))).

End Semantics.

Arguments outcome {L A} f.
Arguments cache {L A} f.
Arguments emitted {L A} f.

(* ====================================================================== *)
(** ** Reading a trace *)

Section TraceViews.
Context {L : Lib}.

(** The exception an event threw, if it threw. *)
Definition thrownBy (ev : Event) : option JsThrown :=
  match projT2 ev with
  | Thrown e => Some e
  | Returned _ => None
  end.

(** The signature and [confirmation.value.err] of a confirmation that
    returned. *)
Definition confirmedBy (ev : Event) : option (string * option TransactionError) :=
  match ev with
  | existT _ r o =>
      match r as r0 return Outcome (Resp r0) -> option (string * option TransactionError) with
      | ConfirmTransaction sig _ _ =>
          fun o => match o with
                   | Returned v => Some (sig, v)
                   | Thrown _ => None
                   end
      | _ => fun _ => None
      end o
  end.

(** The signature asked for and the answer of a [getTransaction] that
    returned. *)
Definition logsFetchedBy (ev : Event) : option (string * option TxInfo) :=
  match ev with
  | existT _ r o =>
      match r as r0 return Outcome (Resp r0) -> option (string * option TxInfo) with
      | GetTransaction sig =>
          fun o => match o with
                   | Returned v => Some (sig, v)
                   | Thrown _ => None
                   end
      | _ => fun _ => None
      end o
  end.

(** The signature a submission answered with. *)
Definition submittedBy (ev : Event) : option string :=
  match ev with
  | existT _ r o =>
      match r as r0 return Outcome (Resp r0) -> option string with
      | SendRawTransaction _ _ =>
          fun o => match o with
                   | Returned v => Some v
                   | Thrown _ => None
                   end
      | _ => fun _ => None
      end o
  end.

(** The buffer a slab fetch answered with. *)
Definition fetchedBy (ev : Event) : option Buffer :=
  match ev with
  | existT _ r o =>
      match r as r0 return Outcome (Resp r0) -> option Buffer with
      | FetchSlab _ =>
          fun o => match o with
                   | Returned v => Some v
                   | Thrown _ => None
                   end
      | _ => fun _ => None
      end o
  end.

(** The most recently fetched buffer of a trace. *)
Definition lastFetched (t : Trace) : option Buffer :=
  fold_left (fun acc ev => match fetchedBy ev with
                           | Some b => Some b
                           | None => acc
                           end) t None.

(** The cache-coherence invariant after the calls of [t]: both fields are
    null, or [slabData] is the most recently fetched buffer and
    [marketConfig] is its parsed configuration. *)
Definition coherent (c : Cache) (t : Trace) : Prop :=
  (slabData c = None /\ marketConfig c = None) \/
  (exists data cfg,
      slabData c = Some data /\ lastFetched t = Some data /\
      marketConfig c = Some cfg /\ parseConfig data = Returned cfg).

(* ---------------------------------------------------------------------- *)
(** *** The per-operation builders as one family *)

Inductive BuilderCall : Type :=
| InitUserTx (wallet : WalletAdapter) (feePayment : option Z)
| DepositTx (wallet : WalletAdapter) (userIdx amount : Z)
| WithdrawTx (wallet : WalletAdapter) (userIdx amount : Z)
| TradeCpiTx (wallet : WalletAdapter) (userIdx lpIdx size : Z)
             (matcherProgram matcherCtx : PublicKey)
| TradeNoCpiTx (wallet : WalletAdapter) (userIdx lpIdx size : Z)
               (lpOwnerWallet : option WalletAdapter)
| KeeperCrankTx (wallet : WalletAdapter) (callerIdx : option Z)
| CloseAccountTx (wallet : WalletAdapter) (userIdx : Z)
| InitMarketTx (wallet : WalletAdapter) (slab mint vault dummyAta : PublicKey)
               (marketArgs : InitMarketArgs)
| InitLpTx (wallet : WalletAdapter)
           (slab mint vault matcherProgram matcherContext : PublicKey)
           (feePayment : option Z)
| SetOracleAuthorityTx (wallet : WalletAdapter) (slab newAuthority : PublicKey)
| PushOraclePriceTx (wallet : WalletAdapter) (slab : PublicKey)
                    (priceE6 timestamp : Z)
| TopUpInsuranceTx (wallet : WalletAdapter) (slab mint vault : PublicKey)
                   (amount : Z).

(** The method a [BuilderCall] stands for. *)
Definition build (self : ClientConfig) (b : BuilderCall) : Prog Transaction :=
  match b with
  | InitUserTx w fee => buildInitUserTx self w fee
  | DepositTx w i a => buildDepositTx self w i a
  | WithdrawTx w i a => buildWithdrawTx self w i a
  | TradeCpiTx w u l s mp mc => buildTradeCpiTx self w u l s mp mc
  | TradeNoCpiTx w u l s lw => buildTradeNoCpiTx self w u l s lw
  | KeeperCrankTx w i => buildKeeperCrankTx self w i
  | CloseAccountTx w i => buildCloseAccountTx self w i
  | InitMarketTx w s m v d a => buildInitMarketTx self w s m v d a
  | InitLpTx w s m v mp mc fee => buildInitLpTx self w s m v mp mc fee
  | SetOracleAuthorityTx w s n => buildSetOracleAuthorityTx self w s n
  | PushOraclePriceTx w s p t => buildPushOraclePriceTx self w s p t
  | TopUpInsuranceTx w s m v a => buildTopUpInsuranceTx self w s m v a
  end.


(* ---------------------------------------------------------------------- *)
(** *** Console lines and verdicts of the market bootstrap *)

Definition logged (msg : string) : Event :=
  existT _ (ConsoleLog msg) (Returned tt).

Definition warned (msg : string) : Event :=
  existT _ (ConsoleWarn msg) (Returned tt).

(** The console line [report] prints for a result. *)
Definition reported (what done : string) (r : TxResult) : Event :=
  if truthy (error r)
  then warned ("[Percolator] " ++ what ++ " warning: "
                 ++ interpolate (error r))%string
  else logged ("[Percolator] ✅ " ++ done ++ ": " ++ signature r)%string.



(** A program that leaves the cache as it found it, whatever the world
    answers. *)
Definition frames {A : Type} (p : Prog A) : Prop :=
  forall w c h, cache (run p w c h) = c.

End TraceViews.

(* ====================================================================== *)
(** ** A concrete library and scripted worlds for the examples *)

Module Example.

Definition plainMeta (k : PublicKey) : AccountMeta :=
  {| pubkey := k; isSigner := false; isWritable := false |}.

Definition config0 : MarketConfig :=
  {| collateralMint := MAINNET_collateralMint;
     vaultPubkey := "Vault";
     indexFeedId := "Feed" |}.

(** The account of the spec's end-to-end scenario: capital 1_000_000, a long
    of 2_000_000 entered at 1_000_000. *)
Definition trader : Account :=
  {| kind := User; acc_owner := "Bob"; capital := 1000000; pnl := 0;
     positionSize := 2000000; entryPrice := 1000000 |}.

Definition idle : Account :=
  {| kind := User; acc_owner := "Alice"; capital := 5000000; pnl := 0;
     positionSize := 0; entryPrice := 0 |}.

Definition maker : Account :=
  {| kind := LP; acc_owner := "Carol"; capital := 0; pnl := 0;
     positionSize := -2000000; entryPrice := 1000000 |}.

Definition slots0 : list Slot :=
  [ {| idx := 0; account := idle |};
    {| idx := 1; account := maker |};
    {| idx := 3; account := trader |};
    {| idx := 4; account := maker |} ].

(** Buffers shorter than eight bytes are malformed. *)
Definition malformed (data : Buffer) : bool := (List.length data <? 8)%nat.

Definition checked {A : Type} (data : Buffer) (a : A) : Outcome A :=
  if malformed data then Thrown (JsError "MalformedSlab") else Returned a.

#[export] Instance lib : Lib := {|
  encodeInitMarket := fun _ => Returned [Byte.x00];
  encodeInitUser := fun _ => Returned [Byte.x01];
  encodeInitLP := fun _ => Returned [Byte.x02];
  encodeDepositCollateral := fun _ => Returned [Byte.x03];
  encodeWithdrawCollateral := fun _ => Returned [Byte.x04];
  encodeTradeCpi := fun _ => Returned [Byte.x05];
  encodeTradeNoCpi := fun _ => Returned [Byte.x06];
  encodeKeeperCrank := fun _ => Returned [Byte.x07];
  encodeCloseAccount := fun _ => Returned [Byte.x09];
  encodeTopUpInsurance := fun _ => Returned [Byte.x0a];
  encodeSetOracleAuthority := fun _ => Returned [Byte.x0b];
  encodePushOraclePrice := fun _ => Returned [Byte.x0c];
  buildAccountMetas := fun _ keys => Returned (map plainMeta keys);
  WELL_KNOWN_tokenProgram := TOKEN_PROGRAM_ID;
  WELL_KNOWN_clock := "SysvarC1ock11111111111111111111111111111111";
  WELL_KNOWN_rent := "SysvarRent111111111111111111111111111111111";
  WELL_KNOWN_systemProgram := "11111111111111111111111111111111";
  ACCOUNTS_INIT_MARKET := [];
  ACCOUNTS_INIT_USER := [];
  ACCOUNTS_INIT_LP := [];
  ACCOUNTS_DEPOSIT_COLLATERAL := [];
  ACCOUNTS_WITHDRAW_COLLATERAL := [];
  ACCOUNTS_TRADE_CPI := [];
  ACCOUNTS_TRADE_NOCPI := [];
  ACCOUNTS_KEEPER_CRANK := [];
  ACCOUNTS_CLOSE_ACCOUNT := [];
  ACCOUNTS_TOPUP_INSURANCE := [];
  ACCOUNTS_SET_ORACLE_AUTHORITY := [];
  ACCOUNTS_PUSH_ORACLE_PRICE := [];
  deriveVaultAuthority := fun _ slab => (("vault:" ++ slab)%string, 255);
  deriveLpPda := fun _ slab _ => (("lp:" ++ slab)%string, 255);
  EngineState := unit;
  parseConfig := fun data => checked data config0;
  parseEngine := fun data => checked data tt;
  parseAccount := fun data _ => checked data maker;
  parseAllAccounts := fun data => checked data slots0;
  parseErrorFromLogs := fun logs =>
    match logs with
    | [] => None
    | _ :: _ => Some {| err_code := 13; err_name := "ProgramFailure";
                        err_hint := Some "see the program logs" |}
    end;
  findProgramAddressSync := fun seeds _ => (String.concat ":" seeds, 255);
  getAssociatedTokenAddress := fun mint owner _ => (mint ++ ":" ++ owner)%string;
  TransactionError := string;
  JSON_stringify := fun e => e;
  solToFixed2 := fun _ => "7.30";
|}.

Definition client0 : ClientConfig :=
  {| programId := MAINNET_programId; slabPubkey := "Slab" |}.

Definition alice : WalletAdapter := {| publicKey := "Alice" |}.

Definition goodSlab : Buffer := repeat Byte.x00 8.
Definition shortSlab : Buffer := [Byte.x01].

Definition warmCache : Cache :=
  {| slabData := Some goodSlab; marketConfig := Some config0 |}.

(** A scripted world.  Every call returns, except that the submission
    numbered [failing] (counting the submissions made so far, from 1) is
    confirmed with an execution error, and that signing throws when
    [rejectSigning] is set.  The slab fetches answer the buffers of [slabs]
    in turn, then [goodSlab]; the transaction logs are [logs]. *)
Record Script : Type := {
  failing : option nat;
  rejectSigning : bool;
  slabs : list Buffer;
  logs : list string;
}.

Definition scripted (s : Script) : World :=
  fun h r =>
    match r as r0 return Outcome (Resp r0) with
    | GetLatestBlockhash =>
        Returned {| blockhash := "bh"; lastValidBlockHeight := 100 |}
    | SignTransaction _ tx =>
        if rejectSigning s then Thrown (JsError "User rejected the request.")
        else Returned tx
    | Serialize _ => Returned [Byte.xff]
    | SendRawTransaction _ _ => Returned "sig"
    | ConfirmTransaction _ _ _ =>
        match failing s with
        | Some n => if Nat.eqb (submissions h) n
                    then Returned (Some "{InstructionError:[1,{Custom:13}]}")
                    else Returned None
        | None => Returned None
        end
    | GetTransaction _ =>
        Returned (Some {| meta := Some {| logMessages := Some (logs s) |} |})
    | FetchSlab _ => Returned (nth (fetches h) (slabs s) goodSlab)
    | GetMinimumBalanceForRentExemption _ => Returned 7300000000
    | KeypairGenerate => Returned "Fresh"
    | DateNow => Returned 1700000000123
    | ConsoleLog _ => Returned tt
    | ConsoleWarn _ => Returned tt
    end.

Definition calm : Script :=
  {| failing := None; rejectSigning := false; slabs := []; logs := [] |}.


(** The slab account answers one byte. *)
Definition truncatedAccount : Script :=
  {| failing := None; rejectSigning := false; slabs := [shortSlab];
     logs := [] |}.

(** The slab account answers a good buffer, then one byte. *)
Definition truncatedLater : Script :=
  {| failing := None; rejectSigning := false; slabs := [goodSlab; shortSlab];
     logs := [] |}.


(** The transaction [buildDepositTx] returns for a deposit of 1_000_000 into
    slot 3. *)
Definition depositTx : Transaction :=
  {| instructions :=
       [SetComputeUnitLimit 400000;
        ProgramInstruction MAINNET_programId
          (map plainMeta
             ["Alice"; "Slab";
              getAta "Alice" MAINNET_collateralMint;
              "Vault"; TOKEN_PROGRAM_ID;
              "SysvarC1ock11111111111111111111111111111111"])
          [Byte.x03]];
     recentBlockhash := None;
     feePayer := None;
     partialSigners := [] |}.

End Example.


(* ====================================================================== *)
(** ** Counting calls, and further views of the builders *)

Section Counting.
Context {L : Lib}.

Definition isSign (r : Req) : bool :=
  match r with SignTransaction _ _ => true | _ => false end.

(** How many requests of a trace satisfy [f]. *)
Definition countReq (f : Req -> bool) (t : Trace) : nat :=
  List.length (filter f (requests t)).

(** [p] makes at most [n] requests satisfying [f], whatever the world
    answers. *)
Definition atMost {A : Type} (f : Req -> bool) (p : Prog A) (n : nat) : Prop :=
  forall w c h, (countReq f (emitted (run p w c h)) <= n)%nat.

(** The builders that take the slab and the mint as arguments and read
    nothing from the client but its program id. *)
Definition isAdminCall (b : BuilderCall) : bool :=
  match b with
  | InitMarketTx _ _ _ _ _ _ | InitLpTx _ _ _ _ _ _ _
  | SetOracleAuthorityTx _ _ _ | PushOraclePriceTx _ _ _ _
  | TopUpInsuranceTx _ _ _ _ _ => true
  | _ => false
  end.

(** The slab fetches a builder has made when it returns: one for a lazy
    [getMarketConfig] on an empty cache, one for every [refreshSlab]. *)
Definition fetchesOf (b : BuilderCall) (c : Cache) : nat :=
  let lazy := match marketConfig c with Some _ => 0%nat | None => 1%nat end in
  match b with
  | InitUserTx _ _ | DepositTx _ _ _ | WithdrawTx _ _ _
  | KeeperCrankTx _ _ | CloseAccountTx _ _ => lazy
  | TradeCpiTx _ _ _ _ _ _ => 1%nat
  | TradeNoCpiTx _ _ _ _ _ => S lazy
  | _ => 0%nat
  end.

(** [x < 0] on numbers. *)
Definition negative (x : number) : bool := SFltb x (Number 0).

(** A number that is not negative: NaN, a zero, or positive. *)
Definition signless (x : number) : Prop :=
  match x with
  | S754_zero s | S754_infinity s | S754_finite s _ _ => s = false
  | S754_nan => True
  end.

End Counting.

(** A world in which the confirmation times out: every other call answers
    as in the calm example world. *)
Definition confirmationTimesOut : @World Example.lib :=
  fun h r =>
    match r as r0 return Outcome (@Resp Example.lib r0) with
    | ConfirmTransaction _ _ _ =>
        Thrown (JsError "block height exceeded")
    | r0 => Example.scripted Example.calm h r0
    end.

(** The first submission is confirmed with an execution error, and the logs
    of the transaction name it. *)
Definition depositFails : Example.Script :=
  {| Example.failing := Some 1%nat; Example.rejectSigning := false;
     Example.slabs := [];
     Example.logs := ["Program log: custom program error: 0xd"] |}.

(** The wallet's user declines to sign. *)
Definition walletRefuses : Example.Script :=
  {| Example.failing := None; Example.rejectSigning := true;
     Example.slabs := []; Example.logs := [] |}.

(** As [depositFails], but the node no longer has the transaction:
    [getTransaction] answers [null]. *)
Definition logsGone : @World Example.lib :=
  fun h r =>
    match r as r0 return Outcome (@Resp Example.lib r0) with
    | GetTransaction _ => Returned None
    | r0 => Example.scripted depositFails h r0
    end.

(* ====================================================================== *)
(** ** The launch flows of [part_002]

    [buyTokenOnPumpFun], [sellTokenOnPumpFun], [createPumpFunToken],
    [launchTokenOnly], [launchTokenWithPercolator] and
    [enableFuturesForToken] talk to two HTTP services and to the chain, and
    the last two run the market bootstrap.  A [Flow] is a program over the
    calls of this layer ([LReq]) that can also run a program of the client
    layer ([FRun]). *)

Section LaunchFlows.
Context {L : Lib}.

(** [TokenMetadata]; the image file is kept as its bytes. *)
Record TokenMetadata : Type := {
  tm_name : string;
  tm_symbol : string;
  tm_description : string;
  tm_image : option Buffer;
  tm_twitter : option string;
  tm_telegram : option string;
  tm_website : option string;
}.

(** [amount] in a PumpPortal request: a number of SOL or a token amount as
    text. *)
Inductive Amount : Type :=
| AmountNumber (n : number)
| AmountText (s : string).

(** The object handed to [JSON.stringify] as the body of a PumpPortal
    request; [tokenMetadata] is [{ name, symbol, uri }]. *)
Record TradeLocalBody : Type := {
  tb_publicKey : string;
  tb_action : string;
  tb_tokenMetadata : option (string * string * string);
  tb_mint : string;
  tb_denominatedInSol : string;
  tb_amount : Amount;
  tb_slippage : number;
  tb_priorityFee : number;
  tb_pool : string;
}.

Record FetchInit : Type := {
  fi_method : string;
  fi_headers : list (string * string);
  fi_body : TradeLocalBody;
}.

(** What the flows read of a [Response]; [res_id] names the response whose
    body is read later. *)
Record Response : Type := {
  res_id : Z;
  res_status : Z;
}.

(** A [VersionedTransaction], by its message bytes and its signers. *)
Record VersionedTransaction : Type := {
  vt_message : Buffer;
  vt_signers : list PublicKey;
}.

(** The answer of [uploadMetadata]. *)
Record UploadResult : Type := {
  up_metadataUri : string;
  up_error : option string;
}.

(** The answer of [getPumpFunPrice], when it is not [null]. *)
Record PriceData : Type := {
  priceInSol : number;
  priceUsd : number;
  marketCap : number;
  pd_imageUrl : option string;
}.

(** [LaunchResult & { mintKeypair?: Keypair }] *)
Record TokenLaunch : Type := {
  tl_success : bool;
  tl_mintAddress : option string;
  tl_signature : option string;
  tl_metadataUri : option string;
  tl_error : option string;
  tl_mintKeypair : option PublicKey;
}.

(** [FullLaunchResult]: the token result spread, then the two market
    fields. *)
Record FullLaunchResult : Type := {
  fl_token : TokenLaunch;
  fl_percolatorSlabAddress : option string;
  fl_percolatorMarketCreated : bool;
}.


Inductive LReq : Type :=
| UploadMetadata (metadata : TokenMetadata)
| GetPumpFunPrice (mint : string)
| Fetch (url : string) (init : FetchInit)
| ResponseText (response : Response)
| ResponseArrayBuffer (response : Response)
| Deserialize (bytes : Buffer)
| SignWithKeypairs (tx : VersionedTransaction) (keys : list PublicKey)
| SignVersioned (wallet : WalletAdapter) (tx : VersionedTransaction)
| SerializeVersioned (signed : VersionedTransaction)
| LaunchLog (msg : string)
| LaunchWarn (msg : string) (e : JsThrown)
| LaunchError (msg : string) (detail : option string).

Definition LResp (r : LReq) : Type :=
  match r with
  | UploadMetadata _ => UploadResult
  | GetPumpFunPrice _ => option PriceData
  | Fetch _ _ => Response
  | ResponseText _ => string
  | ResponseArrayBuffer _ => Buffer
  | Deserialize _ => VersionedTransaction
  | SignWithKeypairs _ _ => VersionedTransaction
  | SignVersioned _ _ => VersionedTransaction
  | SerializeVersioned _ => Buffer
  | LaunchLog _ => unit
  | LaunchWarn _ _ => unit
  | LaunchError _ _ => unit
  end.

Inductive Flow (A : Type) : Type :=
| FRet (a : A)
| FThrow (e : JsThrown)
| FCall (r : LReq) (k : Outcome (LResp r) -> Flow A)
| FRun {B : Type} (p : Prog B) (k : Outcome B -> Flow A).
Arguments FRet {A} a.
Arguments FThrow {A} e.
Arguments FCall {A} r k.
Arguments FRun {A B} p k.

Fixpoint fbind {A B : Type} (p : Flow A) (f : A -> Flow B) : Flow B :=
  match p with
  | FRet a => f a
  | FThrow e => FThrow e
  | FCall r k => FCall r (fun o => fbind (k o) f)
  | FRun q k => FRun q (fun o => fbind (k o) f)
  end.

(** [try { p } catch (e) { h e }] *)
Fixpoint ftry_catch {A : Type} (p : Flow A) (h : JsThrown -> Flow A)
  : Flow A :=
  match p with
  | FRet a => FRet a
  | FThrow e => h e
  | FCall r k => FCall r (fun o => ftry_catch (k o) h)
  | FRun q k => FRun q (fun o => ftry_catch (k o) h)
  end.

Definition flift {A : Type} (o : Outcome A) : Flow A :=
  match o with
  | Returned a => FRet a
  | Thrown e => FThrow e
  end.

(** [await] of a call of this layer, of a chain call, and of a program of
    the client layer. *)
Definition fcall (r : LReq) : Flow (LResp r) := FCall r flift.
Definition chain (r : Req) : Flow (Resp r) := FRun (call r) flift.
Definition runClient {B : Type} (p : Prog B) : Flow B := FRun p flift.

Definition LEvent : Type := { r : LReq & Outcome (LResp r) }.
Definition LTrace : Type := list LEvent.

(** The services answer knowing what happened on the chain and on their own
    side before. *)
Definition LWorld : Type := Trace -> LTrace -> forall r : LReq, Outcome (LResp r).

(** The console never throws. *)
Definition lanswer (lw : LWorld) (hc : Trace) (hl : LTrace) (r : LReq)
  : Outcome (LResp r) :=
  match r as r0 return Outcome (LResp r0) -> Outcome (LResp r0) with
  | LaunchLog _ => fun _ => Returned tt
  | LaunchWarn _ _ => fun _ => Returned tt
  | LaunchError _ _ => fun _ => Returned tt
  | _ => fun o => o
  end (lw hc hl r).

Record FFinal (A : Type) : Type := {
  foutcome : Outcome A;
  onChain : Trace;
  calls : LTrace;
}.
Arguments foutcome {A} f.
Arguments onChain {A} f.
Arguments calls {A} f.

(** [runFlow p w lw hc hl]: run [p] after the chain history [hc] and the
    service history [hl].  A client program run by a flow works on a client
    of its own, so it starts from the empty cache. *)
Fixpoint runFlow {A : Type} (p : Flow A) (w : World) (lw : LWorld)
    (hc : Trace) (hl : LTrace) : FFinal A :=
  match p with
  | FRet a => {| foutcome := Returned a; onChain := []; calls := [] |}
  | FThrow e => {| foutcome := Thrown e; onChain := []; calls := [] |}
  | FCall r k =>
      let o := lanswer lw hc hl r in
      let ev : LEvent := existT _ r o in
      let f := runFlow (k o) w lw hc (hl ++ [ev]) in
      {| foutcome := foutcome f; onChain := onChain f;
         calls := ev :: calls f |}
  | FRun q k =>
      let g := run q w initialCache hc in
      let f := runFlow (k (outcome g)) w lw (hc ++ emitted g) hl in
      {| foutcome := foutcome f; onChain := emitted g ++ onChain f;
         calls := calls f |}
  end.

Definition lrequests (t : LTrace) : list LReq := map (@projT1 _ _) t.

Definition isWalletSign (r : LReq) : bool :=
  match r with SignVersioned _ _ => true | _ => false end.

Definition isPriceLookup (r : LReq) : bool :=
  match r with GetPumpFunPrice _ => true | _ => false end.


Definition lcount (f : LReq -> bool) (t : LTrace) : nat :=
  List.length (filter f (lrequests t)).


End LaunchFlows.

Arguments FRet {L A} a.
Arguments FThrow {L A} e.
Arguments FCall {L A} r k.
Arguments FRun {L A B} p k.
Arguments foutcome {L A} f.
Arguments onChain {L A} f.
Arguments calls {L A} f.

Declare Scope flow_scope.
Delimit Scope flow_scope with flow.
Notation "x <-- p ;; q" := (fbind p (fun x => q))
  (at level 61, p at next level, right associativity) : flow_scope.
Notation "p ;;;; q" := (fbind p (fun _ => q))
  (at level 61, right associativity) : flow_scope.
Open Scope flow_scope.

Section LaunchPrograms.
Context {L : Lib}.

Definition PUMP_PORTAL_API : string := "https://pumpportal.fun/api".

(** The literal [0.0005]: the double nearest to 5/10000. *)
Definition priorityFee : number := number_div (Number 5) (Number 10000).

Definition jsonPost (body : TradeLocalBody) : FetchInit :=
  {| fi_method := "POST";
     fi_headers := [("Content-Type", "application/json")];
     fi_body := body |}.





(** [s || d] on a [string | undefined]. *)
Definition orElse (s : option string) (d : string) : string :=
  match s with
  | Some (String _ _ as t) => t
  | _ => d
  end.

Definition launchFailed (msg : string) : TokenLaunch :=
  {| tl_success := false; tl_mintAddress := None; tl_signature := None;
     tl_metadataUri := None; tl_error := Some msg; tl_mintKeypair := None |}.

(** [createPumpFunToken]; [initialBuyAmountSol: number = 0]. *)
Definition createPumpFunToken (wallet : WalletAdapter)
    (metadata : TokenMetadata) (initialBuyAmountSol : option number)
  : Flow TokenLaunch :=
  let initialBuyAmountSol :=
    match initialBuyAmountSol with Some a => a | None => Number 0 end in
  ftry_catch
    (mintKeypair <-- chain KeypairGenerate ;;
     up <-- fcall (UploadMetadata metadata) ;;
     let metadataUri := up_metadataUri up in
     let uploadError := up_error up in
     if truthy uploadError || negb (truthy (Some metadataUri))
     then FRet (launchFailed (orElse uploadError "Failed to upload metadata"))
     else
       response <-- fcall
         (Fetch (PUMP_PORTAL_API ++ "/trade-local")
            (jsonPost
               {| tb_publicKey := toBase58 (publicKey wallet);
                  tb_action := "create";
                  tb_tokenMetadata :=
                    Some (tm_name metadata, tm_symbol metadata, metadataUri);
                  tb_mint := toBase58 mintKeypair;
                  tb_denominatedInSol := "true";
                  tb_amount := AmountNumber initialBuyAmountSol;
                  tb_slippage := Number 10;
                  tb_priorityFee := priorityFee;
                  tb_pool := "pump" |})) ;;
       if negb (res_status response =? 200)
       then
         errorText <-- fcall (ResponseText response) ;;
         FRet (launchFailed ("PumpPortal API error: " ++ errorText))
       else
         txData <-- fcall (ResponseArrayBuffer response) ;;
         tx <-- fcall (Deserialize txData) ;;
         tx <-- fcall (SignWithKeypairs tx [mintKeypair]) ;;
         signed <-- fcall (SignVersioned wallet tx) ;;
         rawTx <-- fcall (SerializeVersioned signed) ;;
         sig <-- chain (SendRawTransaction rawTx PreflightConfirmed) ;;
         latestBlockhash <-- chain GetLatestBlockhash ;;
         chain (ConfirmTransaction sig (blockhash latestBlockhash)
                  (lastValidBlockHeight latestBlockhash)) ;;;;
         FRet {| tl_success := true;
                 tl_mintAddress := Some (toBase58 mintKeypair);
                 tl_signature := Some sig;
                 tl_metadataUri := Some metadataUri;
                 tl_error := None;
                 tl_mintKeypair := Some mintKeypair |})
    (fun e => FRet (launchFailed (errorMessage e))).

(* ---------------------------------------------------------------------- *)
(** *** The initial price of a market *)

(** [x > 0] on numbers. *)
Definition isPositive (x : number) : bool := SFltb (Number 0) x.

Definition number_mul (x y : number) : number := SFmul 53 1024 x y.

(** The integer nearest to [(-1)^s * m * 2^e], ties upwards. *)
Definition roundHalfUp (s : bool) (m : positive) (e : Z) : Z :=
  let v := if s then Zneg m else Zpos m in
  match e with
  | Zneg k => (2 * v + Zpos (Pos.iter xO xH k)) / (2 * Zpos (Pos.iter xO xH k))
  | _ => v * 2 ^ e
  end.

(** [BigInt(Math.round(x))]: [Math.round] of a finite number is an integer
    a double holds exactly, and [BigInt] refuses NaN and the infinities. *)
Definition bigIntOfRound (x : number) : Outcome Z :=
  match x with
  | S754_zero _ => Returned 0
  | S754_finite s m e => Returned (roundHalfUp s m e)
  | _ => Thrown (JsError "RangeError: The number cannot be converted to a BigInt because it is not an integer")
  end.

(** The [try] block that sets [initialPriceE6], from the answer of
    [getPumpFunPrice] on: the new price, or nothing when the guard fails. *)
Definition priceFrom (priceData : option PriceData) : Outcome (option Z) :=
  match priceData with
  | Some d =>
      if isPositive (priceInSol d)
      then
        let priceUsd := number_mul (priceInSol d) (Number 170) in
        match bigIntOfRound (number_mul priceUsd (Number 1000000)) with
        | Returned p => Returned (Some p)
        | Thrown e => Thrown e
        end
      else Returned None
  | None => Returned None
  end.

(** [let initialPriceE6 = 1_000n; try { ... } catch (e) { console.warn(..., e) }]
    of [launchTokenWithPercolator] and [enableFuturesForToken], which differ
    in the warning's text only. *)
Definition initialPrice (mint warning : string) : Flow Z :=
  ftry_catch
    (priceData <-- fcall (GetPumpFunPrice mint) ;;
     updated <-- flift (priceFrom priceData) ;;
     FRet (match updated with Some p => p | None => 1000 end))
    (fun e => fcall (LaunchWarn warning e) ;;;; FRet 1000).

(** [launchTokenOnly] *)
Definition launchTokenOnly (wallet : WalletAdapter) (metadata : TokenMetadata)
  : Flow FullLaunchResult :=
  fcall (LaunchLog "[Launch] Creating token on Pump.fun...") ;;;;
  tokenResult <-- createPumpFunToken wallet metadata None ;;
  if negb (tl_success tokenResult) || negb (truthy (tl_mintAddress tokenResult))
  then FRet {| fl_token := tokenResult; fl_percolatorSlabAddress := None;
               fl_percolatorMarketCreated := false |}
  else
    fcall (LaunchLog ("[Launch] ✅ Token created: "
                        ++ interpolate (tl_mintAddress tokenResult))) ;;;;
    FRet {| fl_token := tokenResult; fl_percolatorSlabAddress := None;
            fl_percolatorMarketCreated := false |}.

(** [launchTokenWithPercolator] *)
Definition launchTokenWithPercolator (wallet : WalletAdapter)
    (metadata : TokenMetadata) : Flow FullLaunchResult :=
  fcall (LaunchLog "[Launch] Creating token on Pump.fun...") ;;;;
  tokenResult <-- createPumpFunToken wallet metadata None ;;
  if negb (tl_success tokenResult) || negb (truthy (tl_mintAddress tokenResult))
  then FRet {| fl_token := tokenResult; fl_percolatorSlabAddress := None;
               fl_percolatorMarketCreated := false |}
  else
    fcall (LaunchLog ("[Launch] ✅ Token created: "
                        ++ interpolate (tl_mintAddress tokenResult))) ;;;;
    initialPriceE6 <-- initialPrice (interpolate (tl_mintAddress tokenResult))
                         "[Launch] Could not fetch initial price, using default:" ;;
    fcall (LaunchLog "[Launch] Creating Percolator futures layer (~7 SOL)...") ;;;;
    percolatorResult <-- runClient (createPercolatorMarket wallet initialPriceE6) ;;
    if negb (success percolatorResult)
    then
      fcall (LaunchError "[Launch] Percolator market creation failed:"
                         (mr_error percolatorResult)) ;;;;
      FRet {| fl_token := tokenResult; fl_percolatorSlabAddress := None;
              fl_percolatorMarketCreated := false |}
    else
      fcall (LaunchLog ("[Launch] ✅ Percolator market created: "
                          ++ match slabAddress percolatorResult with
                             | Some a => a
                             | None => "undefined"
                             end)) ;;;;
      FRet {| fl_token := tokenResult;
              fl_percolatorSlabAddress := slabAddress percolatorResult;
              fl_percolatorMarketCreated := true |}.


End LaunchPrograms.

(* ---------------------------------------------------------------------- *)
(** *** Reading a launch *)

Section LaunchViews.
Context {L : Lib}.







(** The initial price the [try] block leaves, given the answer of the price
    lookup: the rounded scaled price when the guard holds and [BigInt]
    accepts it, 1000 otherwise. *)
Definition priceGiven (o : Outcome (option PriceData)) : Z :=
  match o with
  | Returned d =>
      match priceFrom d with
      | Returned (Some p) => p
      | _ => 1000
      end
  | Thrown _ => 1000
  end.

End LaunchViews.

(** An answer of the price lookup with [priceInSol = n / d]. *)
Definition quoted (n d : Z) : PriceData :=
  {| priceInSol := number_div (Number n) (Number d);
     priceUsd := number_mul (number_div (Number n) (Number d)) (Number 170);
     marketCap := Number 0;
     pd_imageUrl := None |}.

(* ====================================================================== *)
(** ** Properties *)

(** Symbolic execution: split on the next outcome the program waits for. *)
Ltac stuck_step :=
  match goal with
  | |- context [lift ?o] => destruct o as [?v|?e] eqn:?; cbn
  | |- context [match ?x with Returned _ => _ | Thrown _ => _ end] =>
      destruct x as [?v|?e] eqn:?; cbn
  | |- context [run (match ?x with Some _ => _ | None => _ end)] =>
      destruct x eqn:?; cbn
  | |- context [run (try_catch (match ?x with Some _ => _ | None => _ end) _)] =>
      destruct x eqn:?; cbn
  | |- context [run (bind (match ?x with Some _ => _ | None => _ end) _)] =>
      destruct x eqn:?; cbn
  end.

(** Membership in a list that has been computed. *)
Ltac crush_in :=
  repeat match goal with
         | H : In _ _ |- _ => cbn in H
         | H : _ \/ _ |- _ => destruct H
         | H : False |- _ => destruct H
         | H : Some _ = Some _ |- _ => inversion H; clear H; subst
         | H : None = Some _ |- _ => discriminate H
         | H : Some _ = None |- _ => discriminate H
         end.

Section Properties.
Context {L : Lib}.

(** *** The semantics of sequencing and of try/catch *)

Lemma final_eta {A : Type} (f : Final A) :
  {| outcome := outcome f; cache := cache f; emitted := emitted f |} = f.
Proof. destruct f; reflexivity. Qed.

(** Running [p] and then [k]: [k] starts from the cache and the history [p]
    left; a throw of [p] skips [k]. *)
Lemma run_bind {A B : Type} (p : Prog A) (k : A -> Prog B) w c h :
  run (bind p k) w c h =
  match outcome (run p w c h) with
  | Returned a =>
      let g := run (k a) w (cache (run p w c h)) (h ++ emitted (run p w c h)) in
      {| outcome := outcome g; cache := cache g;
         emitted := emitted (run p w c h) ++ emitted g |}
  | Thrown e =>
      {| outcome := Thrown e; cache := cache (run p w c h);
         emitted := emitted (run p w c h) |}
  end.
Proof.
  revert c h.
  induction p as [a|e|k0 IH|b k0 IH|k0 IH|m k0 IH|r k0 IH]; intros c h;
    cbn [bind run outcome cache emitted].
  - rewrite app_nil_r. cbn. now rewrite final_eta.
  - reflexivity.
  - apply IH.
  - apply IH.
  - apply IH.
  - apply IH.
  - rewrite IH.
    destruct (outcome (run (k0 (answer w h r)) w c _)); cbn;
      now rewrite <- ?app_assoc.
Qed.

(** Running [try { p } catch (e) { hd e }]. *)
Lemma run_try_catch {A : Type} (p : Prog A) (hd : JsThrown -> Prog A) w c h :
  run (try_catch p hd) w c h =
  match outcome (run p w c h) with
  | Returned a => run p w c h
  | Thrown e =>
      let g := run (hd e) w (cache (run p w c h)) (h ++ emitted (run p w c h)) in
      {| outcome := outcome g; cache := cache g;
         emitted := emitted (run p w c h) ++ emitted g |}
  end.
Proof.
  revert c h.
  induction p as [a|e|k0 IH|b k0 IH|k0 IH|m k0 IH|r k0 IH]; intros c h;
    cbn [try_catch run outcome cache emitted].
  - reflexivity.
  - rewrite app_nil_r. cbn. now rewrite final_eta.
  - apply IH.
  - apply IH.
  - apply IH.
  - apply IH.
  - rewrite IH.
    destruct (outcome (run (k0 (answer w h r)) w c _)) eqn:E; cbn.
    + now rewrite E.
    + now rewrite <- ?app_assoc.
Qed.




Lemma run_report what done r w c h :
  run (report what done r) w c h =
  {| outcome := Returned tt; cache := c; emitted := [reported what done r] |}.
Proof. unfold report, reported. destruct (truthy (error r)); reflexivity. Qed.

(* ---------------------------------------------------------------------- *)
(** *** Programs that do not touch the cache *)

Lemma frames_bind {A B : Type} (p : Prog A) (k : A -> Prog B) :
  frames p -> (forall a, frames (k a)) -> frames (bind p k).
Proof.
  intros Hp Hk w c h. rewrite run_bind.
  destruct (outcome (run p w c h)); cbn; [rewrite Hk|]; apply Hp.
Qed.

Lemma frames_lift {A : Type} (o : Outcome A) : frames (lift o).
Proof. intros w c h. destruct o; reflexivity. Qed.

Lemma frames_call r : frames (call r).
Proof. intros w c h. cbn. destruct (answer w h r); reflexivity. Qed.

Lemma frames_Ret {A : Type} (a : A) : frames (Ret a).
Proof. intros w c h. reflexivity. Qed.

Lemma frames_report what done r : frames (report what done r).
Proof. intros w c h. now rewrite run_report. Qed.

Lemma frames_sendTransaction self wallet tx :
  frames (sendTransaction self wallet tx).
Proof.
  intros w c h. unfold sendTransaction, sendTransaction_body; cbn.
  repeat stuck_step; reflexivity.
Qed.

Create HintDb frames.
#[local] Hint Resolve frames_lift frames_call frames_Ret
  frames_sendTransaction frames_report : frames.
#[local] Hint Extern 2 (frames (bind _ _)) =>
  (apply frames_bind; [|intro]) : frames.








(* ---------------------------------------------------------------------- *)
(** *** [sendTransaction] *)

(** [txInfo?.meta?.logMessages ?? []], level by level. *)
Lemma logsOf_cases (txInfo : option TxInfo) :
  logsOf txInfo
  = match txInfo with
    | Some {| meta := Some {| logMessages := Some l |} |} => l
    | _ => []
    end.
Proof. destruct txInfo as [[[[[l|]]|]]|]; reflexivity. Qed.

(** What one call returns, by what its trace holds. *)
Lemma sendTransaction_outcomes self wallet tx w c h :
  exists res : TxResult,
    outcome (run (sendTransaction self wallet tx) w c h) = Returned res /\
    let t := emitted (run (sendTransaction self wallet tx) w c h) in
    ((exists e, In (Some e) (map thrownBy t)) \/
     (exists sig v, In (Some (sig, v)) (map confirmedBy t))) /\
    (forall sig, In (Some (sig, None)) (map confirmedBy t) ->
       In (Some sig) (map submittedBy t) /\
       res = {| signature := sig; error := None; hint := None |}) /\
    (forall sig err, In (Some (sig, Some err)) (map confirmedBy t) ->
       In (Some sig) (map submittedBy t) /\
       In (GetTransaction sig) (requests t) /\
       forall txInfo, In (Some (sig, txInfo)) (map logsFetchedBy t) ->
         res = {| signature := sig;
                  error :=
                    Some match parseErrorFromLogs (logsOf txInfo) with
                         | Some p => (err_name p ++ " (0x"
                                        ++ toString16 (err_code p) ++ ")")%string
                         | None => JSON_stringify err
                         end;
                  hint :=
                    match parseErrorFromLogs (logsOf txInfo) with
                    | Some p => err_hint p
                    | None => None
                    end |}) /\
    (forall e, In (Some e) (map thrownBy t) ->
       res = {| signature := ""; error := Some (errorMessage e);
                hint := None |}).
Proof.
  unfold sendTransaction, sendTransaction_body; cbn.
  repeat stuck_step;
    (eexists; split; [reflexivity|]);
    cbn; repeat split; intros; crush_in; eauto 12; tauto.
Qed.

(** C1.  [sendTransaction] never throws: for every wallet, transaction and
    world it returns a result.  Some call threw or a confirmation came
    back.  When the confirmation reports no error, the result is the
    submitted signature with [error: null].  When it reports an execution
    error, the logs of that signature are requested, and once they are
    answered the result is the signature with [error] the decoded name and
    the code in lowercase hexadecimal and [hint] the decoded hint, or the
    raw chain error when [parseErrorFromLogs] decodes nothing from the
    [logMessages] of the answer (no messages when the transaction, its
    [meta] or its [logMessages] is missing).  When any call threw, the
    result is the empty signature with the message of the [Error] thrown,
    or the rendering of any other thrown value. *)
Theorem sendTransaction_result self wallet tx w c h :
  exists res : TxResult,
    outcome (run (sendTransaction self wallet tx) w c h) = Returned res /\
    let t := emitted (run (sendTransaction self wallet tx) w c h) in
    ((exists e, In (Some e) (map thrownBy t)) \/
     (exists sig v, In (Some (sig, v)) (map confirmedBy t))) /\
    (forall sig, In (Some (sig, None)) (map confirmedBy t) ->
       In (Some sig) (map submittedBy t) /\
       res = {| signature := sig; error := None; hint := None |}) /\
    (forall sig err, In (Some (sig, Some err)) (map confirmedBy t) ->
       In (Some sig) (map submittedBy t) /\
       In (GetTransaction sig) (requests t) /\
       forall txInfo, In (Some (sig, txInfo)) (map logsFetchedBy t) ->
         let logs := match txInfo with
                     | Some {| meta := Some {| logMessages := Some l |} |} => l
                     | _ => []
                     end in
         res = {| signature := sig;
                  error :=
                    Some match parseErrorFromLogs logs with
                         | Some p =>
                             (err_name p ++ " (0x"
                                ++ match err_code p with
                                   | N0 => "0"
                                   | Npos q => HexString.Raw.of_pos q ""
                                   end ++ ")")%string
                         | None => JSON_stringify err
                         end;
                  hint :=
                    match parseErrorFromLogs logs with
                    | Some p => err_hint p
                    | None => None
                    end |}) /\
    (forall e, In (Some e) (map thrownBy t) ->
       res = {| signature := "";
                error := Some match e with
                              | JsError message => message
                              | JsValue rendering => rendering
                              end;
                hint := None |}).
Proof.
  destruct (sendTransaction_outcomes self wallet tx w c h)
    as (res & Ho & Hc & Hn & He & Ht).
  exists res. split; [exact Ho|]. cbv zeta in *.
  split; [exact Hc|]. split; [exact Hn|]. split.
  - intros sig err Hin. destruct (He sig err Hin) as (Hs & Hg & Hl).
    split; [exact Hs|]. split; [exact Hg|].
    intros txInfo Hi. rewrite <- logsOf_cases. exact (Hl txInfo Hi).
  - exact Ht.
Qed.

(** C6.  One call of [sendTransaction] submits to the chain at most once,
    whatever the world answers: a failed send or confirmation is never
    followed by a second submission. *)
Theorem sendTransaction_submits_at_most_once self wallet tx w c h :
  (submissions (emitted (run (sendTransaction self wallet tx) w c h)) <= 1)%nat.
Proof.
  unfold sendTransaction, sendTransaction_body; cbn.
  repeat stuck_step; cbn; lia.
Qed.

(** C10.  [sendTransaction] leaves the cached [slabData] and
    [marketConfig] as they were, whether it reports success, a decoded
    failure or a caught exception. *)
Theorem sendTransaction_keeps_cache self wallet tx w c h :
  cache (run (sendTransaction self wallet tx) w c h) = c /\
  slabData (cache (run (sendTransaction self wallet tx) w c h)) = slabData c /\
  marketConfig (cache (run (sendTransaction self wallet tx) w c h))
    = marketConfig c.
Proof.
  unfold sendTransaction, sendTransaction_body; cbn.
  repeat stuck_step; repeat split; reflexivity.
Qed.

(* ---------------------------------------------------------------------- *)
(** *** Read accessors *)

(** C3 (amended).  [getMarketConfig] fetches the slab exactly when
    [marketConfig] is null and [getEngineState] exactly when [slabData] is
    null; once either has returned, the field it tests is set.
    [getMarketInfo], [findUserAccount] and [getAllPositions] fetch the slab
    once on every call, whatever the cache holds. *)
Theorem accessors_fetch_policy self w c h :
  (fetches (emitted (run (getMarketConfig self) w c h))
     = match marketConfig c with Some _ => 0%nat | None => 1%nat end) /\
  (fetches (emitted (run (getEngineState self) w c h))
     = match slabData c with Some _ => 0%nat | None => 1%nat end) /\
  fetches (emitted (run (getMarketInfo self) w c h)) = 1%nat /\
  (forall owner,
     fetches (emitted (run (findUserAccount self owner) w c h)) = 1%nat) /\
  fetches (emitted (run (getAllPositions self) w c h)) = 1%nat /\
  (forall cfg, outcome (run (getMarketConfig self) w c h) = Returned cfg ->
     marketConfig (cache (run (getMarketConfig self) w c h)) = Some cfg) /\
  (forall eng, outcome (run (getEngineState self) w c h) = Returned eng ->
     slabData (cache (run (getEngineState self) w c h)) <> None).
Proof.
  unfold getMarketConfig, getEngineState, getMarketInfo, findUserAccount,
    getAllPositions, refreshSlab.
  repeat split; intros *; cbn; repeat stuck_step; cbn;
    try reflexivity; congruence.
Qed.

(** Whenever [refreshSlab] returns, it leaves both fields set from the
    buffer it fetched. *)
Lemma refreshSlab_returns_coherent self w c h data :
  outcome (run (refreshSlab self) w c h) = Returned data ->
  coherent (cache (run (refreshSlab self) w c h))
           (emitted (run (refreshSlab self) w c h)).
Proof.
  unfold refreshSlab; cbn. repeat stuck_step; intros H; try discriminate H.
  right. eexists _, _. cbn. repeat split; eauto.
Qed.

(* ---------------------------------------------------------------------- *)
(** *** Positions and leverage *)

Lemma abs128_abs v : abs128 v = Z.abs v.
Proof. unfold abs128. destruct (Z.ltb_spec v 0); lia. Qed.





(* ---------------------------------------------------------------------- *)
(** *** [findUserAccount] *)

Lemma find_first {A : Type} (f : A -> bool) (l : list A) :
  match find f l with
  | Some x => exists before after,
      l = before ++ x :: after /\ f x = true /\
      forall y, In y before -> f y = false
  | None => forall y, In y l -> f y = false
  end.
Proof.
  induction l as [|a l IH]; cbn.
  - intros y [].
  - destruct (f a) eqn:Fa.
    + exists [], l. repeat split; auto. intros y [].
    + destruct (find f l) as [x|].
      * destruct IH as (before & after & -> & Fx & Hb).
        exists (a :: before), after. repeat split; auto.
        intros y [<-|Hy]; auto.
      * intros y [<-|Hy]; auto.
Qed.

Lemma sorted_head_least (before after : list Slot) (s : Slot) :
  StronglySorted (fun a b => idx a < idx b) (before ++ s :: after) ->
  forall s', In s' after -> idx s <= idx s'.
Proof.
  induction before as [|b before IH]; cbn; intros HS s' Hs'.
  - inversion HS as [|? ? _ Hall]; subst.
    rewrite Forall_forall in Hall. specialize (Hall s' Hs'). lia.
  - inversion HS; subst. eauto.
Qed.

(** C9.  When [findUserAccount] returns, it has fetched the slab anew,
    whatever the cache held, and its answer is the first slot in
    [parseAllAccounts] order whose owner equals the key, of either kind:
    no slot before it is owned by the key, and it has the lowest index
    among the key's slots when [parseAllAccounts] lists slots by ascending
    index.  It answers null exactly when no used slot is owned by the
    key. *)
Theorem findUserAccount_first_owned self owner w c h r :
  outcome (run (findUserAccount self owner) w c h) = Returned r ->
  exists data accounts,
    emitted (run (findUserAccount self owner) w c h)
      = [existT _ (FetchSlab (slabPubkey self)) (Returned data)] /\
    parseAllAccounts data = Returned accounts /\
    match r with
    | Some s =>
        exists before after,
          accounts = before ++ s :: after /\
          acc_owner (account s) = owner /\
          (forall s', In s' before -> acc_owner (account s') <> owner) /\
          (StronglySorted (fun a b => idx a < idx b) accounts ->
           forall s', In s' accounts -> acc_owner (account s') = owner ->
                      idx s <= idx s')
    | None => forall s', In s' accounts -> acc_owner (account s') <> owner
    end.
Proof.
  unfold findUserAccount, refreshSlab. cbn.
  repeat stuck_step; intros H; try discriminate H.
  inversion H; subst r; clear H.
  eexists _, _. split; [reflexivity|]. split; [eassumption|].
  match goal with
  | |- context [find ?f ?l] => pose proof (find_first f l) as F
  end.
  destruct (find _ _) as [s|].
  - destruct F as (before & after & E & Fx & Hb).
    exists before, after. unfold pk_equals in *.
    apply String.eqb_eq in Fx. repeat split; auto.
    + intros s' Hs'. apply String.eqb_neq. auto.
    + intros HS s' Hs' Ho. rewrite E in HS, Hs'.
      apply in_app_or in Hs'. destruct Hs' as [Hs'|[<-|Hs']].
      * apply Hb in Hs'. apply String.eqb_neq in Hs'. contradiction.
      * lia.
      * eapply sorted_head_least; eauto.
  - intros s' Hs'. apply String.eqb_neq. unfold pk_equals in F. auto.
Qed.

(* ---------------------------------------------------------------------- *)
(** *** Transaction builders *)




(* ---------------------------------------------------------------------- *)
(** *** Market bootstrap *)


End Properties.

(* ====================================================================== *)
(** ** The cache after a failed parse *)

Section Scenarios.
#[local] Existing Instance Example.lib.

(** C7.  [refreshSlab] stores the fetched buffer before it parses it.  Once
    the slab account answers a buffer [parseConfig] rejects, [refreshSlab]
    throws with [slabData] already replaced and [marketConfig] left as it
    was: starting from the coherent cache a first refresh left, the cache
    ends with the new buffer next to the configuration of the old one; from
    the initial cache it ends with a buffer and no configuration.  Neither
    cache is coherent. *)
Theorem refreshSlab_tears_cache :
  (* a first refresh returns and leaves a coherent cache *)
  run (refreshSlab Example.client0) (Example.scripted Example.truncatedLater)
      initialCache []
    = {| outcome := Returned Example.goodSlab;
         cache := Example.warmCache;
         emitted := [existT _ (FetchSlab "Slab")
                            (Returned Example.goodSlab)] |}
  /\
  coherent Example.warmCache
           [existT _ (FetchSlab "Slab") (Returned Example.goodSlab)]
  /\
  (* the second refresh throws between the two writes *)
  run (refreshSlab Example.client0) (Example.scripted Example.truncatedLater)
      Example.warmCache
      [existT _ (FetchSlab "Slab") (Returned Example.goodSlab)]
    = {| outcome := Thrown (JsError "MalformedSlab");
         cache := {| slabData := Some Example.shortSlab;
                     marketConfig := Some Example.config0 |};
         emitted := [existT _ (FetchSlab "Slab")
                            (Returned Example.shortSlab)] |}
  /\
  parseConfig Example.shortSlab = Thrown (JsError "MalformedSlab")
  /\
  ~ coherent {| slabData := Some Example.shortSlab;
                marketConfig := Some Example.config0 |}
             [existT _ (FetchSlab "Slab") (Returned Example.goodSlab);
              existT _ (FetchSlab "Slab") (Returned Example.shortSlab)]
  /\
  (* the same from the initial cache *)
  run (refreshSlab Example.client0) (Example.scripted Example.truncatedAccount)
      initialCache []
    = {| outcome := Thrown (JsError "MalformedSlab");
         cache := {| slabData := Some Example.shortSlab;
                     marketConfig := None |};
         emitted := [existT _ (FetchSlab "Slab")
                            (Returned Example.shortSlab)] |}
  /\
  ~ coherent {| slabData := Some Example.shortSlab; marketConfig := None |}
             [existT _ (FetchSlab "Slab") (Returned Example.shortSlab)].
Proof.
  repeat match goal with |- _ /\ _ => split end.
  - reflexivity.
  - right. exists Example.goodSlab, Example.config0.
    repeat split; reflexivity.
  - reflexivity.
  - reflexivity.
  - intros [[H _]|(d & cfg & Hd & _ & _ & Hp)].
    + discriminate H.
    + cbn in Hd. inversion Hd; subst d. vm_compute in Hp. discriminate Hp.
  - reflexivity.
  - intros [[H _]|(d & cfg & _ & _ & Hc & _)].
    + discriminate H.
    + discriminate Hc.
Qed.

(* ====================================================================== *)
(** ** Counterexamples to the claims as first stated *)

(** C3 as stated fails: with both cache fields set, [findUserAccount],
    [getMarketInfo] and [getAllPositions] each fetch the slab again. *)
Lemma warm_cache_is_fetched_again :
  slabData Example.warmCache = Some Example.goodSlab /\
  marketConfig Example.warmCache = Some Example.config0 /\
  fetches (emitted (run (findUserAccount Example.client0 "Bob")
                        (Example.scripted Example.calm)
                        Example.warmCache [])) = 1%nat /\
  fetches (emitted (run (getMarketInfo Example.client0)
                        (Example.scripted Example.calm)
                        Example.warmCache [])) = 1%nat /\
  fetches (emitted (run (getAllPositions Example.client0)
                        (Example.scripted Example.calm)
                        Example.warmCache [])) = 1%nat.
Proof. repeat split; reflexivity. Qed.


(* ====================================================================== *)
(** ** The theorems at concrete inputs *)



(** [findUserAccount] for Carol, who owns the LP slots 1 and 4 of the
    example slab: slot 1 is found. *)
Lemma findUserAccount_first_owned_witness :
  outcome (run (findUserAccount Example.client0 "Carol")
               (Example.scripted Example.calm) Example.warmCache [])
    = Returned (Some {| idx := 1; account := Example.maker |}) /\
  exists data accounts,
    parseAllAccounts data = Returned accounts /\
    exists before after,
      accounts = before ++ {| idx := 1; account := Example.maker |} :: after /\
      forall s', In s' before -> acc_owner (account s') <> "Carol".
Proof.
  split; [reflexivity|].
  destruct (findUserAccount_first_owned Example.client0 "Carol"
              (Example.scripted Example.calm) Example.warmCache []
              (Some {| idx := 1; account := Example.maker |}) eq_refl)
    as (data & accounts & _ & P & before & after & E & _ & B & _).
  exists data, accounts. split; [assumption|].
  exists before, after. split; assumption.
Defined.

(** [sendTransaction] for a deposit in four worlds: the deposit goes through;
    it fails on chain and the logs decode to error 13; it fails on chain and
    the logs are gone; the wallet refuses to sign. *)
Lemma sendTransaction_result_witness :
  outcome (run (sendTransaction Example.client0 Example.alice
                  Example.depositTx)
               (Example.scripted Example.calm) initialCache [])
    = Returned {| signature := "sig"; error := None; hint := None |} /\
  outcome (run (sendTransaction Example.client0 Example.alice
                  Example.depositTx)
               (Example.scripted depositFails) initialCache [])
    = Returned {| signature := "sig";
                  error := Some "ProgramFailure (0xd)";
                  hint := Some "see the program logs" |} /\
  outcome (run (sendTransaction Example.client0 Example.alice
                  Example.depositTx)
               logsGone initialCache [])
    = Returned {| signature := "sig";
                  error := Some "{InstructionError:[1,{Custom:13}]}";
                  hint := None |} /\
  outcome (run (sendTransaction Example.client0 Example.alice
                  Example.depositTx)
               (Example.scripted walletRefuses) initialCache [])
    = Returned {| signature := "";
                  error := Some "User rejected the request.";
                  hint := None |}.
Proof.
  split; [|split; [|split]].
  - destruct (sendTransaction_result Example.client0 Example.alice
                Example.depositTx (Example.scripted Example.calm)
                initialCache []) as (res & Ho & _ & Hn & _).
    rewrite Ho. f_equal. apply (Hn "sig"). cbn. auto 10.
  - destruct (sendTransaction_result Example.client0 Example.alice
                Example.depositTx (Example.scripted depositFails)
                initialCache []) as (res & Ho & _ & _ & He & _).
    rewrite Ho. f_equal.
    destruct (He "sig" "{InstructionError:[1,{Custom:13}]}") as (_ & _ & Hl).
    { cbn. auto 10. }
    apply (Hl (Some {| meta := Some {| logMessages :=
                 Some ["Program log: custom program error: 0xd"] |} |})).
    cbn. auto 10.
  - destruct (sendTransaction_result Example.client0 Example.alice
                Example.depositTx logsGone initialCache [])
      as (res & Ho & _ & _ & He & _).
    rewrite Ho. f_equal.
    destruct (He "sig" "{InstructionError:[1,{Custom:13}]}") as (_ & _ & Hl).
    { cbn. auto 10. }
    apply (Hl None). cbn. auto 10.
  - destruct (sendTransaction_result Example.client0 Example.alice
                Example.depositTx (Example.scripted walletRefuses)
                initialCache []) as (res & Ho & _ & _ & _ & Ht).
    rewrite Ho. f_equal.
    apply (Ht (JsError "User rejected the request.")). cbn. auto 10.
Defined.

End Scenarios.

(* ====================================================================== *)
(** ** Further properties of the client *)

(** Symbolic execution that also splits on the cache fields. *)
Ltac exec_step :=
  first
    [ stuck_step
    | match goal with
      | |- context [match marketConfig ?c with Some _ => _ | None => _ end] =>
          destruct (marketConfig c) eqn:?; cbn
      | |- context [match slabData ?c with Some _ => _ | None => _ end] =>
          destruct (slabData c) eqn:?; cbn
      end ].

Ltac unfold_builders :=
  unfold buildInitUserTx, buildDepositTx, buildWithdrawTx, buildTradeCpiTx,
    buildTradeNoCpiTx, buildKeeperCrankTx, buildCloseAccountTx,
    buildInitMarketTx, buildInitLpTx, buildSetOracleAuthorityTx,
    buildPushOraclePriceTx, buildTopUpInsuranceTx, buildTransaction,
    getMarketConfig, refreshSlab.

Ltac by_execution :=
  let w := fresh "w" in
  let c := fresh "c" in
  let h := fresh "h" in
  intros w c h; unfold countReq; cbn; repeat stuck_step; cbn; lia.

Section ClientProperties.
Context {L : Lib}.

(* ---------------------------------------------------------------------- *)
(** *** The cache between calls *)

(** X1.  When [refreshSlab] returns a buffer, that buffer is what its one
    fetch of the client's slab answered, [parseConfig] accepted it, and the
    cache holds exactly that buffer and its configuration, whatever it held
    before. *)
Theorem refreshSlab_on_return self w c h data :
  outcome (run (refreshSlab self) w c h) = Returned data ->
  exists cfg,
    emitted (run (refreshSlab self) w c h)
      = [existT _ (FetchSlab (slabPubkey self)) (Returned data)] /\
    parseConfig data = Returned cfg /\
    cache (run (refreshSlab self) w c h)
      = {| slabData := Some data; marketConfig := Some cfg |}.
Proof.
  unfold refreshSlab; cbn. repeat stuck_step; intros H; try discriminate H.
  inversion H; subst. eexists. repeat split; eauto.
Qed.

Lemma getMarketConfig_cached self w c h cfg :
  marketConfig c = Some cfg ->
  run (getMarketConfig self) w c h
    = {| outcome := Returned cfg; cache := c; emitted := [] |}.
Proof.
  intros E. unfold getMarketConfig. cbn. rewrite E. cbn. rewrite E. reflexivity.
Qed.

Lemma getMarketConfig_returned self w c h cfg :
  outcome (run (getMarketConfig self) w c h) = Returned cfg ->
  marketConfig (cache (run (getMarketConfig self) w c h)) = Some cfg /\
  (fetches (emitted (run (getMarketConfig self) w c h)) <= 1)%nat.
Proof.
  unfold getMarketConfig, refreshSlab. cbn.
  repeat stuck_step; cbn; intros H; try discriminate H; inversion H; subst;
    split; try reflexivity; try lia; congruence.
Qed.

(** X2.  Two [getMarketConfig] calls in a row that both return give the
    same configuration and fetch the slab at most once between them: the
    second call is served from the cache and is never re-validated against
    the chain. *)
Theorem getMarketConfig_twice self w c h cfg1 cfg2 :
  outcome (run (first <- getMarketConfig self ;;
                second <- getMarketConfig self ;;
                Ret (first, second)) w c h) = Returned (cfg1, cfg2) ->
  cfg1 = cfg2 /\
  (fetches (emitted (run (first <- getMarketConfig self ;;
                          second <- getMarketConfig self ;;
                          Ret (first, second)) w c h)) <= 1)%nat.
Proof.
  rewrite run_bind.
  destruct (outcome (run (getMarketConfig self) w c h)) as [first|e] eqn:E1;
    [|discriminate].
  destruct (getMarketConfig_returned _ _ _ _ _ E1) as [Hc Hf].
  cbn zeta. rewrite run_bind, (getMarketConfig_cached _ _ _ _ _ Hc). cbn.
  intros H. inversion H; subst. split; [reflexivity|].
  rewrite ?app_nil_r. exact Hf.
Qed.

Lemma getEngineState_cached self w c h data :
  slabData c = Some data ->
  run (getEngineState self) w c h
    = {| outcome := parseEngine data; cache := c; emitted := [] |}.
Proof.
  intros E. unfold getEngineState. cbn. rewrite E. cbn. rewrite E.
  destruct (parseEngine data); reflexivity.
Qed.

Lemma findUserAccount_returned self owner w c h r :
  outcome (run (findUserAccount self owner) w c h) = Returned r ->
  exists data cfg,
    emitted (run (findUserAccount self owner) w c h)
      = [existT _ (FetchSlab (slabPubkey self)) (Returned data)] /\
    parseConfig data = Returned cfg /\
    cache (run (findUserAccount self owner) w c h)
      = {| slabData := Some data; marketConfig := Some cfg |}.
Proof.
  unfold findUserAccount, refreshSlab; cbn.
  repeat stuck_step; intros H; try discriminate H.
  eexists _, _. repeat split; eauto.
Qed.

(** X3.  [getEngineState] called after a [findUserAccount] that returned
    makes no call of its own: the pair fetches the slab once, and the engine
    state is parsed from the very buffer [findUserAccount] searched. *)
Theorem getEngineState_after_findUserAccount self owner w c h found engine :
  outcome (run (r <- findUserAccount self owner ;;
                e <- getEngineState self ;;
                Ret (r, e)) w c h) = Returned (found, engine) ->
  exists data,
    emitted (run (r <- findUserAccount self owner ;;
                  e <- getEngineState self ;;
                  Ret (r, e)) w c h)
      = [existT _ (FetchSlab (slabPubkey self)) (Returned data)] /\
    parseEngine data = Returned engine.
Proof.
  rewrite run_bind.
  destruct (outcome (run (findUserAccount self owner) w c h)) as [r|e] eqn:E1;
    [|discriminate].
  destruct (findUserAccount_returned _ _ _ _ _ _ E1)
    as (data & cfg & Ht & _ & Hc).
  cbn zeta. rewrite run_bind, Hc, Ht.
  rewrite (getEngineState_cached self w
             {| slabData := Some data; marketConfig := Some cfg |} _ data
             eq_refl).
  cbn [outcome cache emitted].
  destruct (parseEngine data) as [eng|e] eqn:Ee; cbn; [|discriminate].
  intros H. inversion H; subst. exists data. split; [reflexivity|assumption].
Qed.

(** X4.  When [getMarketInfo] returns, its configuration, engine state and
    account list are the three parses of the one buffer it fetched, and the
    cache it leaves holds that buffer with that same configuration. *)
Theorem getMarketInfo_on_return self w c h info :
  outcome (run (getMarketInfo self) w c h) = Returned info ->
  exists data,
    emitted (run (getMarketInfo self) w c h)
      = [existT _ (FetchSlab (slabPubkey self)) (Returned data)] /\
    parseConfig data = Returned (mi_config info) /\
    parseEngine data = Returned (mi_engine info) /\
    parseAllAccounts data = Returned (mi_accounts info) /\
    cache (run (getMarketInfo self) w c h)
      = {| slabData := Some data; marketConfig := Some (mi_config info) |}.
Proof.
  unfold getMarketInfo, refreshSlab; cbn.
  repeat stuck_step; intros H; try discriminate H.
  inversion H; subst; cbn. eexists. repeat split; eauto.
  all: congruence.
Qed.

(* ---------------------------------------------------------------------- *)
(** *** What the builders do on the network *)

(** X5.  Building a transaction never signs, submits or confirms anything:
    the only call any of the twelve builders makes is a fetch of the
    client's own slab. *)
Theorem builders_only_fetch self b w c h :
  Forall (fun r => r = FetchSlab (slabPubkey self))
         (requests (emitted (run (build self b) w c h))).
Proof.
  destruct b; cbn [build]; unfold_builders; cbn;
    repeat exec_step; cbn; repeat constructor.
Qed.

(** X6.  [buildInitMarketTx], [buildInitLpTx], [buildSetOracleAuthorityTx],
    [buildPushOraclePriceTx] and [buildTopUpInsuranceTx] make no call at all
    and leave the cache alone; what they return or throw depends on their
    arguments and the client's program id only, not on the client's slab,
    its cache or the chain. *)
Theorem admin_builders_are_pure self self' b w w' c c' h h' :
  isAdminCall b = true ->
  programId self = programId self' ->
  emitted (run (build self b) w c h) = [] /\
  cache (run (build self b) w c h) = c /\
  outcome (run (build self b) w c h) = outcome (run (build self' b) w' c' h').
Proof.
  intros Hb Hp.
  destruct b; try discriminate Hb; cbn [build]; unfold_builders; cbn;
    rewrite Hp; repeat exec_step; cbn; repeat split; reflexivity.
Qed.

(** X7.  A builder that returns has fetched the slab a fixed number of
    times: the user builders once if no configuration is cached and not at
    all otherwise, [buildTradeCpiTx] always once, and [buildTradeNoCpiTx]
    once on a cached configuration and twice on an empty cache, where it
    takes the feed id from the first fetch and the LP account from the
    second. *)
Theorem builders_fetch_count self b w c h tx :
  outcome (run (build self b) w c h) = Returned tx ->
  fetches (emitted (run (build self b) w c h)) = fetchesOf b c.
Proof.
  destruct b; cbn [build fetchesOf]; unfold_builders; cbn;
    repeat exec_step; cbn; intros H; try discriminate H; reflexivity.
Qed.

End ClientProperties.

Section SendingProperties.
Context {L : Lib}.

(* ---------------------------------------------------------------------- *)
(** *** What [sendTransaction] submits and reports *)

(** X8.  Whatever [sendTransaction] submits is the serialization of what
    the wallet returned when asked to sign the caller's instructions with
    the latest blockhash and the wallet as fee payer, and it is submitted
    with preflight at the confirmed commitment.  Nothing is submitted when
    the blockhash, the signature or the serialization is not obtained. *)
Theorem sendTransaction_submits_what_was_signed self wallet tx w c h :
  forall raw opts,
    In (SendRawTransaction raw opts)
       (requests (emitted (run (sendTransaction self wallet tx) w c h))) ->
    opts = PreflightConfirmed /\
    exists bh signed,
      In (existT _ GetLatestBlockhash (Returned bh))
         (emitted (run (sendTransaction self wallet tx) w c h)) /\
      In (existT _ (SignTransaction wallet
                      {| instructions := instructions tx;
                         recentBlockhash := Some (blockhash bh);
                         feePayer := Some (publicKey wallet);
                         partialSigners := partialSigners tx |})
                   (Returned signed))
         (emitted (run (sendTransaction self wallet tx) w c h)) /\
      In (existT _ (Serialize signed) (Returned raw))
         (emitted (run (sendTransaction self wallet tx) w c h)).
Proof.
  unfold sendTransaction, sendTransaction_body, tx_prepare; cbn.
  repeat stuck_step; cbn; intros raw opts H;
    repeat match goal with
           | H : _ \/ _ |- _ => destruct H
           | H : False |- _ => destruct H
           | H : _ = SendRawTransaction _ _ |- _ =>
               first [discriminate H | inversion H; clear H; subst]
           end;
    (split; [reflexivity|]); eexists _, _; cbn; eauto 12.
Qed.

(** X9.  When a call throws after the transaction was submitted (the
    confirmation or the log lookup), [sendTransaction] reports the empty
    signature with the thrown message although exactly one transaction has
    been submitted: the signature the chain returned is dropped. *)
Theorem sendTransaction_drops_signature_on_late_throw self wallet tx w c h :
  forall sig e res,
    outcome (run (sendTransaction self wallet tx) w c h) = Returned res ->
    In (Some sig) (map submittedBy
                     (emitted (run (sendTransaction self wallet tx) w c h))) ->
    In (Some e) (map thrownBy
                   (emitted (run (sendTransaction self wallet tx) w c h))) ->
    signature res = "" /\ error res = Some (errorMessage e) /\
    submissions (emitted (run (sendTransaction self wallet tx) w c h)) = 1%nat.
Proof.
  unfold sendTransaction, sendTransaction_body; cbn.
  repeat stuck_step; cbn; intros sig e0 res H H1 H2;
    inversion H; subst; crush_in; repeat split; reflexivity.
Qed.

(** X10.  A result without error means exactly one submission, whose
    signature it carries, and no hint; a hint only comes with an error; and
    when nothing was submitted the result is an error with the empty
    signature. *)
Theorem sendTransaction_result_shape self wallet tx w c h res :
  outcome (run (sendTransaction self wallet tx) w c h) = Returned res ->
  (error res = None ->
     hint res = None /\
     submissions (emitted (run (sendTransaction self wallet tx) w c h))
       = 1%nat /\
     In (Some (signature res))
        (map submittedBy
             (emitted (run (sendTransaction self wallet tx) w c h)))) /\
  (hint res <> None -> error res <> None) /\
  (submissions (emitted (run (sendTransaction self wallet tx) w c h)) = 0%nat ->
     signature res = "" /\ error res <> None).
Proof.
  unfold sendTransaction, sendTransaction_body; cbn.
  repeat stuck_step; cbn; intros H; inversion H; subst; cbn;
    repeat split; intros; try discriminate; try congruence; auto 10.
Qed.

(* ---------------------------------------------------------------------- *)
(** *** Bounds on the market bootstrap *)

Lemma countReq_app f (a b : Trace) :
  countReq f (a ++ b) = (countReq f a + countReq f b)%nat.
Proof.
  unfold countReq, requests. now rewrite map_app, filter_app, length_app.
Qed.

Lemma atMost_bind {A B : Type} f (p : Prog A) (k : A -> Prog B) n m :
  atMost f p n -> (forall a, atMost f (k a) m) -> atMost f (bind p k) (n + m).
Proof.
  intros Hp Hk w c h. rewrite run_bind. specialize (Hp w c h).
  destruct (outcome (run p w c h)) as [a|e]; cbn [emitted].
  - rewrite countReq_app.
    specialize (Hk a w (cache (run p w c h)) (h ++ emitted (run p w c h))).
    lia.
  - lia.
Qed.

Lemma atMost_try_catch {A : Type} f (p : Prog A) (hd : JsThrown -> Prog A)
    n m :
  atMost f p n -> (forall e, atMost f (hd e) m) ->
  atMost f (try_catch p hd) (n + m).
Proof.
  intros Hp Hk w c h. rewrite run_try_catch. specialize (Hp w c h).
  destruct (outcome (run p w c h)) as [a|e]; cbn [emitted].
  - lia.
  - rewrite countReq_app.
    specialize (Hk e w (cache (run p w c h)) (h ++ emitted (run p w c h))).
    lia.
Qed.

Lemma atMost_weaken {A : Type} f (p : Prog A) n m :
  atMost f p n -> (n <= m)%nat -> atMost f p m.
Proof. intros Hp Hnm w c h. specialize (Hp w c h). lia. Qed.

Lemma atMost_quiet {A : Type} f (p : Prog A) :
  (forall w c h, emitted (run p w c h) = []) -> atMost f p 0.
Proof. intros Hq w c h. now rewrite Hq. Qed.

Lemma atMost_call f r : atMost f (call r) (if f r then 1 else 0).
Proof.
  intros w c h. cbn. destruct (answer w h r); unfold countReq; cbn;
    destruct (f r); cbn; lia.
Qed.

Lemma atMost_report f what done r :
  (forall m, f (ConsoleLog m) = false) ->
  (forall m, f (ConsoleWarn m) = false) ->
  atMost f (report what done r) 0.
Proof.
  intros Hl Hw w c h. rewrite run_report. unfold reported, countReq.
  destruct (truthy (error r)); cbn; rewrite ?Hl, ?Hw; cbn; lia.
Qed.

Lemma atMost_sendTransaction_send self wallet tx :
  atMost isSend (sendTransaction self wallet tx) 1.
Proof. unfold sendTransaction, sendTransaction_body. by_execution. Qed.

Lemma atMost_sendTransaction_sign self wallet tx :
  atMost isSign (sendTransaction self wallet tx) 1.
Proof. unfold sendTransaction, sendTransaction_body. by_execution. Qed.

Lemma atMost_sendTransaction_fetch self wallet tx :
  atMost isFetch (sendTransaction self wallet tx) 0.
Proof. unfold sendTransaction, sendTransaction_body. by_execution. Qed.

Lemma raw_steps_send wallet slab :
  atMost isSend (createSlabStep wallet) 1 /\
  atMost isSend (createVaultStep wallet slab) 1 /\
  atMost isSend (createMatcherCtxStep wallet) 1.
Proof.
  repeat split; unfold createSlabStep, createVaultStep, createMatcherCtxStep;
    by_execution.
Qed.

Lemma raw_steps_sign wallet slab :
  atMost isSign (createSlabStep wallet) 1 /\
  atMost isSign (createVaultStep wallet slab) 1 /\
  atMost isSign (createMatcherCtxStep wallet) 1.
Proof.
  repeat split; unfold createSlabStep, createVaultStep, createMatcherCtxStep;
    by_execution.
Qed.

Lemma raw_steps_fetch wallet slab :
  atMost isFetch (createSlabStep wallet) 0 /\
  atMost isFetch (createVaultStep wallet slab) 0 /\
  atMost isFetch (createMatcherCtxStep wallet) 0.
Proof.
  repeat split; unfold createSlabStep, createVaultStep, createMatcherCtxStep;
    by_execution.
Qed.

(** The four client steps of the bootstrap: a builder that makes no call,
    then [sendTransaction]. *)
Lemma client_steps f client wallet slab vault ctx price n :
  (forall tx, atMost f (sendTransaction client wallet tx) n) ->
  f DateNow = false ->
  atMost f (initMarketStep client wallet slab vault price) n /\
  atMost f (setOracleStep client wallet slab) n /\
  atMost f (pushPriceStep client wallet slab price) n /\
  atMost f (initLpStep client wallet slab vault ctx) n.
Proof.
  intros Hs Hd.
  assert (Hlift : forall A (o : Outcome A), atMost f (lift o) 0).
  { intros A o. apply atMost_quiet. intros; destruct o; reflexivity. }
  assert (Hbt : forall ix, atMost f (buildTransaction ix) 0).
  { intros ix. apply atMost_quiet. reflexivity. }
  repeat split;
    unfold initMarketStep, setOracleStep, pushPriceStep, initLpStep,
      buildInitMarketTx, buildSetOracleAuthorityTx, buildPushOraclePriceTx,
      buildInitLpTx.
  - apply (atMost_bind f _ _ 0 n); [|auto].
    apply (atMost_bind f _ _ 0 0); [auto|intros].
    apply (atMost_bind f _ _ 0 0); auto.
  - apply (atMost_bind f _ _ 0 n); [|auto].
    apply (atMost_bind f _ _ 0 0); [auto|intros].
    apply (atMost_bind f _ _ 0 0); auto.
  - apply (atMost_bind f _ _ 0 n).
    { pose proof (atMost_call f DateNow) as H. now rewrite Hd in H. }
    intros. apply (atMost_bind f _ _ 0 n); [|auto].
    apply (atMost_bind f _ _ 0 0); [auto|intros].
    apply (atMost_bind f _ _ 0 0); auto.
  - apply (atMost_bind f _ _ 0 n); [|auto].
    apply (atMost_bind f _ _ 0 0); [auto|intros].
    apply (atMost_bind f _ _ 0 0); auto.
Qed.

Lemma bootstrap_atMost f wallet price n :
  (forall client tx, atMost f (sendTransaction client wallet tx) n) ->
  (forall slab, atMost f (createSlabStep wallet) n /\
                atMost f (createVaultStep wallet slab) n /\
                atMost f (createMatcherCtxStep wallet) n) ->
  f DateNow = false ->
  (forall m, f (ConsoleLog m) = false) ->
  (forall m, f (ConsoleWarn m) = false) ->
  atMost f (createPercolatorMarket wallet price) (7 * n).
Proof.
  intros Hs Hraw Hd Hl Hw.
  assert (Hret : forall A (a : A), atMost f (Ret a) 0).
  { intros. apply atMost_quiet. reflexivity. }
  assert (Hlog : forall m, atMost f (call (ConsoleLog m)) 0).
  { intros m. pose proof (atMost_call f (ConsoleLog m)) as H.
    now rewrite Hl in H. }
  unfold createPercolatorMarket.
  eapply atMost_weaken; [apply (atMost_try_catch f _ _ (7 * n) 0)|lia];
    [|auto].
  unfold createPercolatorMarket_body.
  eapply atMost_weaken; [apply (atMost_bind f _ _ n (6 * n))|lia].
  { apply (Hraw ""). }
  intros slab.
  eapply atMost_weaken; [apply (atMost_bind f _ _ n (5 * n))|lia].
  { apply (Hraw slab). }
  intros vault. cbn zeta.
  set (client := {| programId := MAINNET_programId; slabPubkey := slab |}).
  destruct (client_steps f client wallet slab vault "" price n (Hs client) Hd)
    as (H3 & H4 & H5 & _).
  eapply atMost_weaken; [apply (atMost_bind f _ _ n (4 * n))|lia];
    [exact H3|].
  intros r3. destruct (truthy (error r3)).
  { eapply atMost_weaken; [apply Hret|lia]. }
  eapply atMost_weaken; [apply (atMost_bind f _ _ 0 (4 * n))|lia];
    [apply Hlog|].
  intros _. unfold afterInitMarket.
  eapply atMost_weaken; [apply (atMost_bind f _ _ n (3 * n))|lia];
    [exact H4|].
  intros r4.
  eapply atMost_weaken; [apply (atMost_bind f _ _ 0 (3 * n))|lia];
    [now apply atMost_report|].
  intros _.
  eapply atMost_weaken; [apply (atMost_bind f _ _ n (2 * n))|lia];
    [exact H5|].
  intros r5.
  eapply atMost_weaken; [apply (atMost_bind f _ _ 0 (2 * n))|lia];
    [now apply atMost_report|].
  intros _.
  eapply atMost_weaken; [apply (atMost_bind f _ _ n n)|lia].
  { apply (Hraw slab). }
  intros ctx.
  destruct (client_steps f client wallet slab vault ctx price n (Hs client) Hd)
    as (_ & _ & _ & H7).
  eapply atMost_weaken; [apply (atMost_bind f _ _ n 0)|lia]; [exact H7|].
  intros r7.
  eapply atMost_weaken; [apply (atMost_bind f _ _ 0 0)|lia];
    [now apply atMost_report|auto].
Qed.

Lemma bootstrap_submissions wallet price :
  atMost isSend (createPercolatorMarket wallet price) 7.
Proof.
  apply (bootstrap_atMost isSend wallet price 1); auto.
  - intros. apply atMost_sendTransaction_send.
  - intros. apply raw_steps_send.
Qed.

(** X11.  Whatever the world answers, one run of [createPercolatorMarket]
    submits at most seven transactions and asks the wallet for at most
    seven signatures, one per step, and it never fetches the slab: it does
    not read back what it created. *)
Theorem bootstrap_bounds wallet price w h :
  (submissions (emitted (run (createPercolatorMarket wallet price) w
                             initialCache h)) <= 7)%nat /\
  (countReq isSign (emitted (run (createPercolatorMarket wallet price) w
                                 initialCache h)) <= 7)%nat /\
  fetches (emitted (run (createPercolatorMarket wallet price) w
                        initialCache h)) = 0%nat.
Proof.
  split; [|split].
  - apply bootstrap_submissions.
  - apply (bootstrap_atMost isSign wallet price 1); auto.
    + intros. apply atMost_sendTransaction_sign.
    + intros. apply raw_steps_sign.
  - pose proof (bootstrap_atMost isFetch wallet price 0) as H.
    unfold atMost, countReq in H. unfold fetches.
    specialize (H (fun _ _ => atMost_sendTransaction_fetch _ _ _)
                  (raw_steps_fetch wallet) eq_refl (fun _ => eq_refl)
                  (fun _ => eq_refl) w initialCache h). lia.
Qed.

(** X12.  The three steps that submit a raw transaction (create slab,
    create vault, create matcher context) await the confirmation and drop
    its answer: a confirmation that reports an execution error does not
    make the step throw, so the step returns and the bootstrap goes on. *)
Theorem raw_steps_ignore_confirmation_error wallet slab w c h sig err :
  (In (Some (sig, Some err))
      (map confirmedBy (emitted (run (createSlabStep wallet) w c h))) ->
   exists key, outcome (run (createSlabStep wallet) w c h) = Returned key) /\
  (In (Some (sig, Some err))
      (map confirmedBy (emitted (run (createVaultStep wallet slab) w c h))) ->
   exists ata,
     outcome (run (createVaultStep wallet slab) w c h) = Returned ata) /\
  (In (Some (sig, Some err))
      (map confirmedBy (emitted (run (createMatcherCtxStep wallet) w c h))) ->
   exists key,
     outcome (run (createMatcherCtxStep wallet) w c h) = Returned key).
Proof.
  unfold createSlabStep, createVaultStep, createMatcherCtxStep.
  repeat split; cbn; repeat stuck_step; cbn; intros H; crush_in; eauto.
Qed.

(* ---------------------------------------------------------------------- *)
(** *** The sign of the leverage *)

Lemma binary_round_aux_sign s m e l :
  match binary_round_aux 53 1024 s m e l with
  | S754_zero s' | S754_infinity s' | S754_finite s' _ _ => s' = s
  | S754_nan => True
  end.
Proof.
  unfold binary_round_aux.
  destruct (shr_fexp 53 1024 m e l) as [mrs' e'].
  destruct (shr_fexp 53 1024 _ e' loc_Exact) as [mrs'' e''].
  destruct (shr_m mrs''); auto.
  destruct (Z.leb e'' (1024 - 53)); reflexivity.
Qed.

Lemma Number_signless z : 0 <= z -> signless (Number z).
Proof.
  intros Hz. unfold Number, binary_normalize.
  destruct z as [|p|p]; try lia; [reflexivity|].
  unfold binary_round. destruct (shl_align _ _ _) as [mz ez].
  apply binary_round_aux_sign.
Qed.

Lemma number_div_signless x y :
  signless x -> signless y -> signless (number_div x y).
Proof.
  intros Hx Hy. unfold number_div, SFdiv, signless in *.
  destruct x as [sx|sx| |sx mx ex], y as [sy|sy| |sy my ey]; subst; cbn; auto.
  destruct (SFdiv_core_binary _ _ _ _ _ _) as [[mz ez] lz].
  apply (binary_round_aux_sign false).
Qed.

Lemma signless_not_negative x : signless x -> negative x = false.
Proof.
  unfold negative, signless. destruct x as [s|s| |s m e]; intros; subst;
    reflexivity.
Qed.

(** X13.  The leverage [getAllPositions] reports is never below zero, for
    any capital, size and entry price: the notional is never negative, and
    a short position has the same notional and the same leverage as the
    long position of the same size, entry price and capital. *)
Theorem leverage_never_negative a :
  negative (leverageOf a) = false /\
  0 <= notionalOf a /\
  (forall a', capital a' = capital a -> entryPrice a' = entryPrice a ->
              positionSize a' = - positionSize a ->
              notionalOf a' = notionalOf a /\
              leverageOf a' = leverageOf a).
Proof.
  split; [|split].
  - apply signless_not_negative. unfold leverageOf.
    destruct (andb _ _) eqn:E; [|exact eq_refl].
    apply andb_true_iff in E. destruct E as [Ec En].
    apply number_div_signless; apply Number_signless; lia.
  - unfold notionalOf. destruct (Z.gtb_spec (entryPrice a) 0); [|lia].
    apply Z.quot_pos; [|lia]. rewrite abs128_abs. nia.
  - intros a' Hc He Hs.
    assert (Hn : notionalOf a' = notionalOf a).
    { unfold notionalOf. rewrite He, Hs, !abs128_abs, Z.abs_opp.
      reflexivity. }
    split; [exact Hn|]. unfold leverageOf. rewrite Hn, Hc. reflexivity.
Qed.

End SendingProperties.

(* ====================================================================== *)
(** ** Properties of the launch flows *)

(** Symbolic execution of a flow: split on the next answer or test. *)
Ltac flow_step :=
  match goal with
  | |- context [lift ?o] => destruct o as [?v|?e] eqn:?; cbn -[Number priorityFee]
  | |- context [flift ?o] => destruct o as [?v|?e] eqn:?; cbn -[Number priorityFee]
  | |- context [match ?x with Returned _ => _ | Thrown _ => _ end] =>
      lazymatch x with
      | outcome _ => fail
      | foutcome _ => fail
      | _ => destruct x as [?v|?e] eqn:?; cbn -[Number priorityFee]
      end
  | |- context [runFlow (ftry_catch (if ?b then _ else _) _)] =>
      destruct b eqn:?; cbn -[Number priorityFee]
  | |- context [runFlow (if ?b then _ else _)] =>
      destruct b eqn:?; cbn -[Number priorityFee]
  end.

Section LaunchProperties.
Context {L : Lib}.

(* ---------------------------------------------------------------------- *)
(** *** The semantics of sequencing *)

Lemma ffinal_eta {A : Type} (f : FFinal A) :
  {| foutcome := foutcome f; onChain := onChain f; calls := calls f |} = f.
Proof. destruct f; reflexivity. Qed.

Lemma runFlow_fbind {A B : Type} (p : Flow A) (k : A -> Flow B) w lw hc hl :
  runFlow (fbind p k) w lw hc hl =
  match foutcome (runFlow p w lw hc hl) with
  | Returned a =>
      let g := runFlow (k a) w lw (hc ++ onChain (runFlow p w lw hc hl))
                       (hl ++ calls (runFlow p w lw hc hl)) in
      {| foutcome := foutcome g;
         onChain := onChain (runFlow p w lw hc hl) ++ onChain g;
         calls := calls (runFlow p w lw hc hl) ++ calls g |}
  | Thrown e =>
      {| foutcome := Thrown e;
         onChain := onChain (runFlow p w lw hc hl);
         calls := calls (runFlow p w lw hc hl) |}
  end.
Proof.
  revert hc hl.
  induction p as [a|e|r k0 IH|B0 q k0 IH]; intros hc hl;
    cbn [fbind runFlow foutcome onChain calls].
  - rewrite !app_nil_r. cbn. now rewrite ffinal_eta.
  - reflexivity.
  - rewrite IH.
    destruct (foutcome (runFlow (k0 (lanswer lw hc hl r)) w lw hc _)); cbn;
      now rewrite <- ?app_assoc.
  - rewrite IH.
    destruct (foutcome (runFlow (k0 _) w lw _ hl)); cbn;
      now rewrite <- ?app_assoc.
Qed.

Lemma runFlow_flift {A : Type} (o : Outcome A) w lw hc hl :
  runFlow (flift o) w lw hc hl
  = {| foutcome := o; onChain := []; calls := [] |}.
Proof. destruct o; reflexivity. Qed.

Lemma runFlow_runClient {B : Type} (p : Prog B) w lw hc hl :
  runFlow (runClient p) w lw hc hl
  = {| foutcome := outcome (run p w initialCache hc);
       onChain := emitted (run p w initialCache hc);
       calls := [] |}.
Proof.
  unfold runClient. cbn [runFlow]. rewrite runFlow_flift. cbn.
  now rewrite app_nil_r.
Qed.

Lemma runFlow_log (msg : string) w lw hc hl :
  runFlow (fcall (LaunchLog msg)) w lw hc hl
  = {| foutcome := Returned tt; onChain := [];
       calls := [existT _ (LaunchLog msg) (Returned tt)] |}.
Proof. reflexivity. Qed.

Lemma runFlow_error (msg : string) (detail : option string) w lw hc hl :
  runFlow (fcall (LaunchError msg detail)) w lw hc hl
  = {| foutcome := Returned tt; onChain := [];
       calls := [existT _ (LaunchError msg detail) (Returned tt)] |}.
Proof. reflexivity. Qed.

Lemma lcount_app f t u :
  lcount f (t ++ u) = (lcount f t + lcount f u)%nat.
Proof.
  unfold lcount, lrequests. now rewrite map_app, filter_app, length_app.
Qed.

Lemma submissions_app (a b : Trace) :
  submissions (a ++ b) = (submissions a + submissions b)%nat.
Proof. apply (countReq_app isSend). Qed.

Ltac count_calls :=
  repeat first
    [ rewrite lcount_app
    | match goal with
      | |- context [lcount ?f (?x :: ?l)] =>
          lazymatch l with
          | [] => fail
          | _ => change (lcount f (x :: l)) with (lcount f ([x] ++ l))
          end
      end ];
  repeat match goal with
    | H : lcount _ _ = _ |- _ => rewrite H
    end;
  reflexivity.

(** A [try] whose handler returns a value never throws. *)
Lemma ftry_catch_returns {A : Type} (p : Flow A) (h : JsThrown -> A)
    w lw hc hl :
  exists a,
    foutcome (runFlow (ftry_catch p (fun e => FRet (h e))) w lw hc hl)
    = Returned a.
Proof.
  revert hc hl. induction p as [a|e|r k IH|B q k IH]; intros hc hl; cbn.
  - eauto.
  - eauto.
  - apply IH.
  - apply IH.
Qed.

Lemma createPercolatorMarket_returns wallet price w c h :
  exists res,
    outcome (run (createPercolatorMarket wallet price) w c h) = Returned res.
Proof.
  unfold createPercolatorMarket. rewrite run_try_catch.
  destruct (outcome (run (createPercolatorMarket_body wallet price) w c h))
    as [res|e] eqn:E.
  - eauto.
  - cbn. eauto.
Qed.

(* ---------------------------------------------------------------------- *)
(** *** Buying and selling *)



(* ---------------------------------------------------------------------- *)
(** *** Creating a token *)


Lemma createPumpFunToken_returns wallet metadata amount w lw hc hl :
  exists token,
    foutcome (runFlow (createPumpFunToken wallet metadata amount) w lw hc hl)
    = Returned token.
Proof.
  unfold createPumpFunToken.
  apply (ftry_catch_returns _ (fun e => launchFailed (errorMessage e))).
Qed.

Lemma createPumpFunToken_bounds wallet metadata amount w lw hc hl :
  lcount isPriceLookup
    (calls (runFlow (createPumpFunToken wallet metadata amount) w lw hc hl))
  = 0%nat /\
  (submissions
     (onChain (runFlow (createPumpFunToken wallet metadata amount) w lw hc hl))
   <= 1)%nat.
Proof.
  unfold createPumpFunToken; cbn -[Number priorityFee].
  repeat flow_step; split; cbn; try reflexivity; lia.
Qed.

(* ---------------------------------------------------------------------- *)
(** *** The initial price of a market *)

Lemma number_mul_signless x y :
  signless x -> signless y -> signless (number_mul x y).
Proof.
  intros Hx Hy. unfold number_mul, SFmul, signless in *.
  destruct x as [sx|sx| |sx mx ex], y as [sy|sy| |sy my ey]; subst; cbn; auto.
  apply (binary_round_aux_sign false).
Qed.

Lemma isPositive_signless x : isPositive x = true -> signless x.
Proof.
  unfold isPositive, signless. destruct x as [s|s| |s m e]; cbn; auto;
    destruct s; auto; discriminate.
Qed.

Lemma bigIntOfRound_nonneg x p :
  signless x -> bigIntOfRound x = Returned p -> 0 <= p.
Proof.
  unfold signless, bigIntOfRound, roundHalfUp.
  destruct x as [s|s| |s m e]; intros Hs H; try discriminate;
    inversion H; subst; [lia|].
  destruct e as [|k|k].
  - lia.
  - apply Z.mul_nonneg_nonneg; [lia|]. apply Z.pow_nonneg. lia.
  - apply Z.div_pos; lia.
Qed.

Lemma priceFrom_nonneg d p :
  priceFrom d = Returned (Some p) -> 0 <= p.
Proof.
  unfold priceFrom. destruct d as [d|]; [|discriminate].
  destruct (isPositive (priceInSol d)) eqn:Hp; [|discriminate].
  destruct (bigIntOfRound _) as [q|e] eqn:Hq; [|discriminate].
  intros H. inversion H; subst.
  eapply bigIntOfRound_nonneg; [|exact Hq].
  apply number_mul_signless; [|apply Number_signless; lia].
  apply number_mul_signless; [|apply Number_signless; lia].
  now apply isPositive_signless.
Qed.

Lemma priceGiven_nonneg o : 0 <= priceGiven o.
Proof.
  unfold priceGiven. destruct o as [d|e]; [|lia].
  destruct (priceFrom d) as [[p|]|e] eqn:E; try lia.
  eapply priceFrom_nonneg; eauto.
Qed.


Lemma run_initialPrice mint warning w lw hc hl :
  exists t,
    runFlow (initialPrice mint warning) w lw hc hl
    = {| foutcome := Returned (priceGiven (lw hc hl (GetPumpFunPrice mint)));
         onChain := [];
         calls := existT _ (GetPumpFunPrice mint)
                         (lw hc hl (GetPumpFunPrice mint)) :: t |} /\
    lcount isPriceLookup t = 0%nat /\ lcount isWalletSign t = 0%nat.
Proof.
  unfold initialPrice, priceGiven; cbn.
  destruct (lw hc hl (GetPumpFunPrice mint)) as [d|e]; cbn.
  - destruct (priceFrom d) as [[p|]|e]; cbn; eexists; split;
      try reflexivity; split; reflexivity.
  - eexists; split; [reflexivity|split; reflexivity].
Qed.


(* ---------------------------------------------------------------------- *)
(** *** Launching *)

(** X17.  [launchTokenOnly] never throws: it returns the result of
    [createPumpFunToken] with [percolatorMarketCreated: false], its chain
    calls are those of the token creation (at most one submission), and it
    never looks a price up. *)
Theorem launchTokenOnly_result wallet metadata w lw hc hl :
  exists token,
    let F := runFlow (launchTokenOnly wallet metadata) w lw hc hl in
    let T := runFlow (createPumpFunToken wallet metadata None) w lw hc
               (hl ++ [existT _ (LaunchLog "[Launch] Creating token on Pump.fun...")
                              (Returned tt)]) in
    foutcome T = Returned token /\
    foutcome F = Returned {| fl_token := token;
                             fl_percolatorSlabAddress := None;
                             fl_percolatorMarketCreated := false |} /\
    onChain F = onChain T /\
    (submissions (onChain F) <= 1)%nat /\
    lcount isPriceLookup (calls F) = 0%nat.
Proof.
  destruct (createPumpFunToken_bounds wallet metadata None w lw hc
    (hl ++ [existT _ (LaunchLog "[Launch] Creating token on Pump.fun...")
                   (Returned tt)])) as [Hq Hsub].
  destruct (createPumpFunToken_returns wallet metadata None w lw hc
    (hl ++ [existT _ (LaunchLog "[Launch] Creating token on Pump.fun...")
                   (Returned tt)])) as [token Ht].
  exists token. cbv zeta. split; [exact Ht|].
  unfold launchTokenOnly.
  rewrite runFlow_fbind, runFlow_log. cbn [foutcome onChain calls].
  rewrite runFlow_fbind, app_nil_r, Ht. cbn [foutcome onChain calls app].
  set (T := runFlow (createPumpFunToken wallet metadata None) w lw hc _) in *.
  destruct (negb (tl_success token) || negb (truthy (tl_mintAddress token))).
  - cbn [runFlow foutcome onChain calls]. rewrite !app_nil_r.
    repeat split; [exact Hsub|count_calls].
  - rewrite runFlow_fbind, runFlow_log.
    cbn [runFlow foutcome onChain calls]. rewrite !app_nil_r.
    repeat split; [exact Hsub|count_calls].
Qed.

(** X18.  [launchTokenWithPercolator] never throws and submits at most
    eight transactions.  When the token creation fails, it returns that
    failure with no market, without a price lookup or a bootstrap call.
    Otherwise it looks the price up once and runs the market bootstrap
    after the token's calls, at a price that is never negative; the result
    keeps the token's fields, [percolatorMarketCreated] is the bootstrap's
    [success], the slab address is reported only on success, and the
    bootstrap's error message is not part of the result. *)
Theorem launchTokenWithPercolator_result wallet metadata w lw hc hl :
  exists token,
    let F := runFlow (launchTokenWithPercolator wallet metadata) w lw hc hl in
    let T := runFlow (createPumpFunToken wallet metadata None) w lw hc
               (hl ++ [existT _ (LaunchLog "[Launch] Creating token on Pump.fun...")
                              (Returned tt)]) in
    foutcome T = Returned token /\
    (submissions (onChain F) <= 8)%nat /\
    if negb (tl_success token) || negb (truthy (tl_mintAddress token))
    then
      foutcome F = Returned {| fl_token := token;
                               fl_percolatorSlabAddress := None;
                               fl_percolatorMarketCreated := false |} /\
      onChain F = onChain T /\
      lcount isPriceLookup (calls F) = 0%nat
    else
      exists price res,
        let G := run (createPercolatorMarket wallet price) w initialCache
                     (hc ++ onChain T) in
        0 <= price /\
        outcome G = Returned res /\
        foutcome F = Returned {| fl_token := token;
                                 fl_percolatorSlabAddress :=
                                   if success res then slabAddress res
                                   else None;
                                 fl_percolatorMarketCreated := success res |} /\
        onChain F = onChain T ++ emitted G /\
        lcount isPriceLookup (calls F) = 1%nat.
Proof.
  destruct (createPumpFunToken_bounds wallet metadata None w lw hc
    (hl ++ [existT _ (LaunchLog "[Launch] Creating token on Pump.fun...")
                   (Returned tt)])) as [Hq Hsub].
  destruct (createPumpFunToken_returns wallet metadata None w lw hc
    (hl ++ [existT _ (LaunchLog "[Launch] Creating token on Pump.fun...")
                   (Returned tt)])) as [token Ht].
  exists token. cbv zeta. split; [exact Ht|].
  unfold launchTokenWithPercolator.
  rewrite runFlow_fbind, runFlow_log. cbn [foutcome onChain calls].
  rewrite runFlow_fbind, app_nil_r, Ht. cbn [foutcome onChain calls app].
  set (T := runFlow (createPumpFunToken wallet metadata None) w lw hc _) in *.
  destruct (negb (tl_success token) || negb (truthy (tl_mintAddress token))).
  - cbn [runFlow foutcome onChain calls]. rewrite !app_nil_r.
    repeat split; [lia|count_calls].
  - rewrite runFlow_fbind, runFlow_log. cbn [foutcome onChain calls].
    rewrite runFlow_fbind.
    match goal with
    | |- context [runFlow (initialPrice ?m ?s) ?a ?b ?c ?d] =>
        destruct (run_initialPrice m s a b c d) as (t & -> & Hp & Hs);
        set (looked := b c d (GetPumpFunPrice m)) in *
    end.
    cbn [foutcome onChain calls].
    rewrite runFlow_fbind, runFlow_log. cbn [foutcome onChain calls].
    rewrite runFlow_fbind, runFlow_runClient. cbn [foutcome onChain calls].
    rewrite !app_nil_r.
    destruct (createPercolatorMarket_returns wallet (priceGiven looked) w
                initialCache (hc ++ onChain T)) as [res Hres].
    pose proof (bootstrap_submissions wallet (priceGiven looked) w
                  initialCache (hc ++ onChain T)) as Hseven.
    rewrite Hres.
    destruct (success res) eqn:Hsucc; cbn [negb].
    + rewrite runFlow_fbind, runFlow_log.
      cbn [runFlow foutcome onChain calls]. rewrite !app_nil_r.
      split; [rewrite submissions_app; cbn [app];
              unfold submissions, countReq in *; lia|].
      exists (priceGiven looked), res.
      split; [apply priceGiven_nonneg|]. split; [exact Hres|].
      rewrite Hsucc. repeat split. count_calls.
    + rewrite runFlow_fbind, runFlow_error.
      cbn [runFlow foutcome onChain calls]. rewrite !app_nil_r.
      split; [rewrite submissions_app; cbn [app];
              unfold submissions, countReq in *; lia|].
      exists (priceGiven looked), res.
      split; [apply priceGiven_nonneg|]. split; [exact Hres|].
      rewrite Hsucc. repeat split. count_calls.
Qed.

End LaunchProperties.

(* ====================================================================== *)
(** ** The further properties at concrete inputs *)

Section FurtherScenarios.
#[local] Existing Instance Example.lib.

(** [refreshSlab] on the example slab, over a cache that held something. *)
Lemma refreshSlab_on_return_witness :
  outcome (run (refreshSlab Example.client0)
               (Example.scripted Example.calm) Example.warmCache [])
    = Returned Example.goodSlab /\
  exists cfg,
    emitted (run (refreshSlab Example.client0)
                 (Example.scripted Example.calm) Example.warmCache [])
      = [existT _ (FetchSlab "Slab") (Returned Example.goodSlab)] /\
    parseConfig Example.goodSlab = Returned cfg /\
    cache (run (refreshSlab Example.client0)
               (Example.scripted Example.calm) Example.warmCache [])
      = {| slabData := Some Example.goodSlab; marketConfig := Some cfg |}.
Proof.
  split; [reflexivity|].
  apply (refreshSlab_on_return Example.client0
           (Example.scripted Example.calm) Example.warmCache []
           Example.goodSlab eq_refl).
Defined.

(** Two [getMarketConfig] calls on a new client: one fetch. *)
Lemma getMarketConfig_twice_witness :
  outcome (run (first <- getMarketConfig Example.client0 ;;
                second <- getMarketConfig Example.client0 ;;
                Ret (first, second))
               (Example.scripted Example.calm) initialCache [])
    = Returned (Example.config0, Example.config0) /\
  (fetches (emitted (run (first <- getMarketConfig Example.client0 ;;
                          second <- getMarketConfig Example.client0 ;;
                          Ret (first, second))
                         (Example.scripted Example.calm) initialCache []))
   <= 1)%nat.
Proof.
  split; [reflexivity|].
  apply (getMarketConfig_twice Example.client0
           (Example.scripted Example.calm) initialCache []
           Example.config0 Example.config0 eq_refl).
Defined.

(** Carol's account, then the engine state, on a new client. *)
Lemma getEngineState_after_findUserAccount_witness :
  outcome (run (r <- findUserAccount Example.client0 "Carol" ;;
                e <- getEngineState Example.client0 ;;
                Ret (r, e))
               (Example.scripted Example.calm) initialCache [])
    = Returned (Some {| idx := 1; account := Example.maker |}, tt) /\
  exists data,
    emitted (run (r <- findUserAccount Example.client0 "Carol" ;;
                  e <- getEngineState Example.client0 ;;
                  Ret (r, e))
                 (Example.scripted Example.calm) initialCache [])
      = [existT _ (FetchSlab "Slab") (Returned data)] /\
    parseEngine data = Returned tt.
Proof.
  split; [reflexivity|].
  apply (getEngineState_after_findUserAccount Example.client0 "Carol"
           (Example.scripted Example.calm) initialCache []
           (Some {| idx := 1; account := Example.maker |}) tt eq_refl).
Defined.

(** [getMarketInfo] on the example slab. *)
Lemma getMarketInfo_on_return_witness :
  outcome (run (getMarketInfo Example.client0)
               (Example.scripted Example.calm) initialCache [])
    = Returned (@Build_MarketInfo Example.lib Example.config0 tt
                                   Example.slots0) /\
  exists data,
    emitted (run (getMarketInfo Example.client0)
                 (Example.scripted Example.calm) initialCache [])
      = [existT _ (FetchSlab "Slab") (Returned data)] /\
    parseAllAccounts data = Returned Example.slots0.
Proof.
  split; [reflexivity|].
  destruct (getMarketInfo_on_return Example.client0
              (Example.scripted Example.calm) initialCache []
              (@Build_MarketInfo Example.lib Example.config0 tt Example.slots0) eq_refl)
    as (data & E & _ & _ & A & _).
  exists data. split; assumption.
Defined.

(** [buildSetOracleAuthorityTx] on two clients of the same program with
    different slabs, one of which cannot even read its slab. *)
Lemma admin_builders_are_pure_witness :
  emitted (run (build Example.client0
                  (SetOracleAuthorityTx Example.alice "NewSlab" "Alice"))
               (Example.scripted Example.calm) initialCache []) = [] /\
  outcome (run (build Example.client0
                  (SetOracleAuthorityTx Example.alice "NewSlab" "Alice"))
               (Example.scripted Example.calm) initialCache [])
  = outcome (run (build {| programId := MAINNET_programId;
                           slabPubkey := "Elsewhere" |}
                    (SetOracleAuthorityTx Example.alice "NewSlab" "Alice"))
                 (Example.scripted Example.truncatedAccount)
                 Example.warmCache []).
Proof.
  destruct (admin_builders_are_pure Example.client0
              {| programId := MAINNET_programId; slabPubkey := "Elsewhere" |}
              (SetOracleAuthorityTx Example.alice "NewSlab" "Alice")
              (Example.scripted Example.calm)
              (Example.scripted Example.truncatedAccount)
              initialCache Example.warmCache [] [] eq_refl eq_refl)
    as (E & _ & O).
  split; assumption.
Defined.

(** [buildTradeNoCpiTx] on a new client fetches the slab twice. *)
Lemma builders_fetch_count_witness :
  (exists tx,
     outcome (run (build Example.client0
                     (TradeNoCpiTx Example.alice 3 1 500000 None))
                  (Example.scripted Example.calm) initialCache [])
       = Returned tx) /\
  fetches (emitted (run (build Example.client0
                           (TradeNoCpiTx Example.alice 3 1 500000 None))
                        (Example.scripted Example.calm) initialCache []))
    = 2%nat.
Proof.
  split; [eexists; reflexivity|].
  eapply (builders_fetch_count Example.client0
            (TradeNoCpiTx Example.alice 3 1 500000 None)
            (Example.scripted Example.calm) initialCache []).
  reflexivity.
Defined.

(** A deposit sent in the calm world. *)
Lemma sendTransaction_submits_what_was_signed_witness :
  In (SendRawTransaction [Byte.xff] PreflightConfirmed)
     (requests (emitted (run (sendTransaction Example.client0 Example.alice
                                Example.depositTx)
                             (Example.scripted Example.calm) initialCache []))) /\
  exists bh signed,
    In (existT _ GetLatestBlockhash (Returned bh))
       (emitted (run (sendTransaction Example.client0 Example.alice
                        Example.depositTx)
                     (Example.scripted Example.calm) initialCache [])) /\
    In (existT _ (SignTransaction Example.alice
                    {| instructions := instructions Example.depositTx;
                       recentBlockhash := Some (blockhash bh);
                       feePayer := Some "Alice";
                       partialSigners := [] |})
                 (Returned signed))
       (emitted (run (sendTransaction Example.client0 Example.alice
                        Example.depositTx)
                     (Example.scripted Example.calm) initialCache [])) /\
    In (existT _ (Serialize signed) (Returned [Byte.xff]))
       (emitted (run (sendTransaction Example.client0 Example.alice
                        Example.depositTx)
                     (Example.scripted Example.calm) initialCache [])).
Proof.
  assert (H : In (SendRawTransaction [Byte.xff] PreflightConfirmed)
     (requests (emitted (run (sendTransaction Example.client0 Example.alice
                                Example.depositTx)
                             (Example.scripted Example.calm) initialCache [])))).
  { cbn. auto 10. }
  split; [exact H|].
  apply (sendTransaction_submits_what_was_signed Example.client0 Example.alice
           Example.depositTx (Example.scripted Example.calm) initialCache []
           [Byte.xff] PreflightConfirmed H).
Defined.

(** A deposit whose confirmation times out: submitted, reported without its
    signature. *)
Lemma sendTransaction_drops_signature_on_late_throw_witness :
  outcome (run (sendTransaction Example.client0 Example.alice
                  Example.depositTx)
               confirmationTimesOut initialCache [])
    = Returned {| signature := ""; error := Some "block height exceeded";
                  hint := None |} /\
  submissions (emitted (run (sendTransaction Example.client0 Example.alice
                               Example.depositTx)
                            confirmationTimesOut initialCache [])) = 1%nat.
Proof.
  split; [reflexivity|].
  assert (H1 : In (Some "sig") (map submittedBy
     (emitted (run (sendTransaction Example.client0 Example.alice
                      Example.depositTx)
                   confirmationTimesOut initialCache [])))).
  { cbn. auto 10. }
  assert (H2 : In (Some (JsError "block height exceeded")) (map thrownBy
     (emitted (run (sendTransaction Example.client0 Example.alice
                      Example.depositTx)
                   confirmationTimesOut initialCache [])))).
  { cbn. auto 10. }
  apply (sendTransaction_drops_signature_on_late_throw Example.client0
           Example.alice Example.depositTx confirmationTimesOut initialCache
           [] "sig" (JsError "block height exceeded")
           {| signature := ""; error := Some "block height exceeded";
              hint := None |} eq_refl H1 H2).
Defined.

(** A deposit that goes through. *)
Lemma sendTransaction_result_shape_witness :
  outcome (run (sendTransaction Example.client0 Example.alice
                  Example.depositTx)
               (Example.scripted Example.calm) initialCache [])
    = Returned {| signature := "sig"; error := None; hint := None |} /\
  submissions (emitted (run (sendTransaction Example.client0 Example.alice
                               Example.depositTx)
                            (Example.scripted Example.calm) initialCache []))
    = 1%nat.
Proof.
  split; [reflexivity|].
  destruct (sendTransaction_result_shape Example.client0 Example.alice
              Example.depositTx (Example.scripted Example.calm) initialCache
              [] {| signature := "sig"; error := None; hint := None |}
              eq_refl) as (H & _ & _).
  destruct (H eq_refl) as (_ & S & _). exact S.
Defined.

(** A bonding-curve price of 0.00003 SOL opens the market at 5100 (e6);
    a positive price too small to reach half a unit opens it at 0, not at
    the default. *)
Lemma initial_price_examples :
  priceGiven (Returned (Some (quoted 3 100000))) = 5100 /\
  priceGiven (Returned (Some (quoted 1 1000000000))) = 0 /\
  priceGiven (Returned (Some (quoted 0 1))) = 1000 /\
  priceGiven (Returned (Some (quoted 1 0))) = 1000.
Proof. vm_compute. repeat split. Qed.

End FurtherScenarios.
